(** * bitfinex-api-go, v2/websocket/factories.go

    A shallow embedding of the message factories of the websocket client
    (ticker, trade, book, candles and derivative-status factories), of the
    exact-number decoding they rely on, and of the order-book replica the
    book factory maintains.

    Conventions.
    - A Go call either returns or panics: [outcome].
    - A Go [(T, error)] result is a pair whose second component is an
      [option error]; a pointer is an [option] ([None] is [nil]).
    - The [orderbooks map[string]*Orderbook] of the book factory is a finite
      map from symbols to locations together with a heap of [Orderbook]
      objects, so that two symbols may share one book, as in Go.
    - Functions of other packages ([ticker.FromRaw], [convert.ToFloat64Array],
      [bitfinex.NewBookUpdateFromRaw], ...) are fields of the class
      [Packages]; every statement about a factory holds for every
      implementation of them. *)

From Stdlib Require Import ZArith NArith Lia Ascii String.
From stdpp Require Import base option list gmap strings sorting.

Set Default Proof Using "Type".
Set Warnings "-register-all".
Local Open Scope char_scope.

(** ** Bytes *)

Abbreviation bytes := (list ascii).

(** [B "text"] is the byte slice of a string constant. *)
Definition B (s : string) : bytes := list_ascii_of_string s.

Definition quote : ascii := "034".
Definition backslash : ascii := "092".

(** * Package encoding/json: decoding with [UseNumber] *)

Module json.

(** What [Decode] stores in an [interface{}] when [UseNumber] is set:
    [nil], [bool], [json.Number] (the literal, as written), [string],
    [[]interface{}] and [map[string]interface{}].  A string is kept as the
    bytes between its quotes (escapes are checked but not expanded) and an
    object as its members in the order of the text: no factory reads
    either. *)
Inductive iface : Type :=
| INil
| IBool (b : bool)
| INumber (lit : bytes)
| IString (body : bytes)
| ISlice (elems : list iface)
| IMap (members : list (bytes * iface)).


(** The scanner gives up beyond this many open arrays and objects. *)
Definition maxNestingDepth : N := 10000.

Definition is_space (c : ascii) : bool :=
  (c =? " ") || (c =? "009") || (c =? "010") || (c =? "013").

Definition is_digit (c : ascii) : bool :=
  (48 <=? nat_of_ascii c)%nat && (nat_of_ascii c <=? 57)%nat.

Definition is_digit19 (c : ascii) : bool :=
  (49 <=? nat_of_ascii c)%nat && (nat_of_ascii c <=? 57)%nat.

Definition is_hex (c : ascii) : bool :=
  is_digit c
  || ((97 <=? nat_of_ascii c)%nat && (nat_of_ascii c <=? 102)%nat)
  || ((65 <=? nat_of_ascii c)%nat && (nat_of_ascii c <=? 70)%nat).

(** The characters that may follow a backslash, [u] apart. *)
Definition is_escape (c : ascii) : bool :=
  (c =? "b") || (c =? "f") || (c =? "n") || (c =? "r") || (c =? "t")
  || (c =? backslash) || (c =? "/") || (c =? quote).

Definition is_control (c : ascii) : bool := (nat_of_ascii c <? 32)%nat.

Fixpoint skip_space (s : bytes) : bytes :=
  match s with
  | c :: s' => if is_space c then skip_space s' else s
  | [] => []
  end.

(** The longest prefix of digits, and what follows it. *)
Fixpoint span_digits (s : bytes) : bytes * bytes :=
  match s with
  | c :: s' =>
      if is_digit c then let '(d, r) := span_digits s' in (c :: d, r)
      else ([], s)
  | [] => ([], [])
  end.

(** One or more digits. *)
Definition digits1 (s : bytes) : option (bytes * bytes) :=
  match span_digits s with
  | ([], _) => None
  | (d, r) => Some (d, r)
  end.

Definition lex_int (s : bytes) : option (bytes * bytes) :=
  match s with
  | c :: s' =>
      if c =? "0" then Some ([c], s')
      else if is_digit19 c then
        let '(d, r) := span_digits s' in Some (c :: d, r)
      else None
  | [] => None
  end.

Definition lex_frac (s : bytes) : option (bytes * bytes) :=
  match s with
  | c :: s' =>
      if c =? "." then
        match digits1 s' with
        | Some (d, r) => Some (c :: d, r)
        | None => None
        end
      else Some ([], s)
  | [] => Some ([], [])
  end.

Definition lex_sign (s : bytes) : bytes * bytes :=
  match s with
  | c :: s' => if (c =? "+") || (c =? "-") then ([c], s') else ([], s)
  | [] => ([], [])
  end.

Definition lex_exp (s : bytes) : option (bytes * bytes) :=
  match s with
  | c :: s' =>
      if (c =? "e") || (c =? "E") then
        let '(sg, s'') := lex_sign s' in
        match digits1 s'' with
        | Some (d, r) => Some (c :: sg ++ d, r)
        | None => None
        end
      else Some ([], s)
  | [] => Some ([], [])
  end.

Definition lex_minus (s : bytes) : bytes * bytes :=
  match s with
  | c :: s' => if c =? "-" then ([c], s') else ([], s)
  | [] => ([], [])
  end.

(** A number: the literal and the rest.  The scanner never backtracks: a
    [.] or an [e] that no digit follows is an error. *)
Definition lex_number (s : bytes) : option (bytes * bytes) :=
  let '(m, s1) := lex_minus s in
  match lex_int s1 with
  | Some (i, s2) =>
      match lex_frac s2 with
      | Some (f, s3) =>
          match lex_exp s3 with
          | Some (e, s4) => Some (m ++ i ++ f ++ e, s4)
          | None => None
          end
      | None => None
      end
  | None => None
  end.

(** The rest of a string, after its opening quote: the body and what
    follows the closing quote. *)
Fixpoint string_body (s : bytes) : option (bytes * bytes) :=
  match s with
  | [] => None
  | c :: s' =>
      if c =? quote then Some ([], s')
      else if c =? backslash then
        match s' with
        | e :: s'' =>
            if is_escape e then
              match string_body s'' with
              | Some (b, r) => Some (c :: e :: b, r)
              | None => None
              end
            else if e =? "u" then
              match s'' with
              | h1 :: h2 :: h3 :: h4 :: s3 =>
                  if is_hex h1 && is_hex h2 && is_hex h3 && is_hex h4 then
                    match string_body s3 with
                    | Some (b, r) => Some (c :: e :: h1 :: h2 :: h3 :: h4 :: b, r)
                    | None => None
                    end
                  else None
              | _ => None
              end
            else None
        | [] => None
        end
      else if is_control c then None
      else
        match string_body s' with
        | Some (b, r) => Some (c :: b, r)
        | None => None
        end
  end.

(** The rest of one of the literals [null], [true] and [false]. *)
Fixpoint expect (lit s : bytes) : option bytes :=
  match lit with
  | [] => Some s
  | c :: lit' =>
      match s with
      | d :: s' => if c =? d then expect lit' s' else None
      | [] => None
      end
  end.

Definition starts_with (c : ascii) (s : bytes) : option bytes :=
  match s with
  | d :: s' => if d =? c then Some s' else None
  | [] => None
  end.

(** The next value of the input and the bytes after it, [None] on a syntax
    error.  [depth] counts the arrays and objects that are open; [fuel]
    bounds the recursion and is never exhausted when it is taken from the
    length of the input (see [Decode]). *)
Fixpoint value (fuel : nat) (depth : N) (s : bytes) {struct fuel}
  : option (iface * bytes) :=
  match fuel with
  | O => None
  | S fuel' =>
      match skip_space s with
      | [] => None
      | c :: s1 =>
          if c =? "[" then
            if (maxNestingDepth <=? depth)%N then None else
            match starts_with "]" (skip_space s1) with
            | Some s2 => Some (ISlice [], s2)
            | None =>
                match elements fuel' (N.succ depth) s1 with
                | Some (vs, s2) => Some (ISlice vs, s2)
                | None => None
                end
            end
          else if c =? "{" then
            if (maxNestingDepth <=? depth)%N then None else
            match starts_with "}" (skip_space s1) with
            | Some s2 => Some (IMap [], s2)
            | None =>
                match members fuel' (N.succ depth) s1 with
                | Some (ms, s2) => Some (IMap ms, s2)
                | None => None
                end
            end
          else if c =? quote then
            match string_body s1 with
            | Some (b, s2) => Some (IString b, s2)
            | None => None
            end
          else if c =? "n" then
            match expect (B "ull") s1 with
            | Some s2 => Some (INil, s2)
            | None => None
            end
          else if c =? "t" then
            match expect (B "rue") s1 with
            | Some s2 => Some (IBool true, s2)
            | None => None
            end
          else if c =? "f" then
            match expect (B "alse") s1 with
            | Some s2 => Some (IBool false, s2)
            | None => None
            end
          else
            match lex_number (c :: s1) with
            | Some (lit, s2) => Some (INumber lit, s2)
            | None => None
            end
      end
  end

with elements (fuel : nat) (depth : N) (s : bytes) {struct fuel}
  : option (list iface * bytes) :=
  match fuel with
  | O => None
  | S fuel' =>
      match value fuel' depth s with
      | Some (v, s1) =>
          match skip_space s1 with
          | c :: s2 =>
              if c =? "," then
                match elements fuel' depth s2 with
                | Some (vs, s3) => Some (v :: vs, s3)
                | None => None
                end
              else if c =? "]" then Some ([v], s2)
              else None
          | [] => None
          end
      | None => None
      end
  end

with members (fuel : nat) (depth : N) (s : bytes) {struct fuel}
  : option (list (bytes * iface) * bytes) :=
  match fuel with
  | O => None
  | S fuel' =>
      match starts_with quote (skip_space s) with
      | Some s1 =>
          match string_body s1 with
          | Some (k, s2) =>
              match starts_with ":" (skip_space s2) with
              | Some s3 =>
                  match value fuel' depth s3 with
                  | Some (v, s4) =>
                      match skip_space s4 with
                      | c :: s5 =>
                          if c =? "," then
                            match members fuel' depth s5 with
                            | Some (ms, s6) => Some ((k, v) :: ms, s6)
                            | None => None
                            end
                          else if c =? "}" then Some ([(k, v)], s5)
                          else None
                      | [] => None
                      end
                  | None => None
                  end
              | None => None
              end
          | None => None
          end
      | None => None
      end
  end.

(** Enough fuel for any input [s]. *)
Definition fuel_for (s : bytes) : nat := 2 * length s + 2.

(** [readValue]: the first JSON value of the stream, which the decoder
    scans entirely before it stores anything. *)
Definition readValue (s : bytes) : option (iface * bytes) :=
  value (fuel_for s) 0 s.

End json.

(** ** Errors *)

(** The errors that arise in this file, and [ErrOther] for the errors of
    other packages.  [SyntaxError] stands for every error of the JSON
    scanner ([*json.SyntaxError], [io.EOF], [io.ErrUnexpectedEOF]). *)
Inductive error : Type :=
| SyntaxError
| UnmarshalTypeError
| Errorf (msg : string)
| ErrOther (code : nat).

(** ** Outcomes *)

Inductive outcome (A : Type) : Type :=
| Returned (a : A)
| Panicked.
Arguments Returned {A} a.
Arguments Panicked {A}.

Definition obind {A C : Type} (o : outcome A) (k : A -> outcome C) : outcome C :=
  match o with
  | Returned a => k a
  | Panicked => Panicked
  end.

Import json.

(** [Decoder.Decode] into a [*[]interface{}] that starts out [nil], with
    [UseNumber]: an array is stored element by element, [null] leaves the
    slice [nil] without an error, any other value is an
    [UnmarshalTypeError].  What follows the first value is not read. *)
Definition Decode (s : bytes) : option (list iface) * option error :=
  match readValue s with
  | None => (None, Some SyntaxError)
  | Some (ISlice vs, _) => (Some vs, None)
  | Some (INil, _) => (None, None)
  | Some (_, _) => (None, Some UnmarshalTypeError)
  end.

(** factories.go, [ConvertBytesToJsonNumberArray]. *)
Definition ConvertBytesToJsonNumberArray (raw_bytes : bytes)
  : option (list iface) * option error :=
  let '(raw_json_number, str_conv_err) := Decode raw_bytes in
  match str_conv_err with
  | Some e => (None, Some e)
  | None => (raw_json_number, None)
  end.

(** ** The JSON grammar, stated apart from the decoder *)

Module grammar.

Definition spaces (ws : bytes) : Prop := Forall (λ c, is_space c = true) ws.
Definition all_digits (d : bytes) : Prop := Forall (λ c, is_digit c = true) d.

Inductive integer_part : bytes -> Prop :=
| int_zero : integer_part ["0"]
| int_pos c d : is_digit19 c = true -> all_digits d -> integer_part (c :: d).

Inductive fraction_part : bytes -> Prop :=
| frac_none : fraction_part []
| frac_some d : d <> [] -> all_digits d -> fraction_part ("." :: d).

Inductive sign_part : bytes -> Prop :=
| sign_none : sign_part []
| sign_plus : sign_part ["+"]
| sign_minus : sign_part ["-"].

Inductive exponent_part : bytes -> Prop :=
| exp_none : exponent_part []
| exp_some c sg d :
    c = "e" \/ c = "E" -> sign_part sg -> d <> [] -> all_digits d ->
    exponent_part (c :: sg ++ d).

Inductive minus_part : bytes -> Prop :=
| minus_none : minus_part []
| minus_some : minus_part ["-"].


Inductive number_literal : bytes -> Prop :=
| number_lit m i f e :
    minus_part m -> integer_part i -> fraction_part f -> exponent_part e ->
    number_literal (m ++ i ++ f ++ e).

(** The bytes between the quotes of a string literal. *)
Inductive string_chars : bytes -> Prop :=
| chars_nil : string_chars []
| chars_plain c b :
    c <> quote -> c <> backslash -> is_control c = false ->
    string_chars b -> string_chars (c :: b)
| chars_escape e b :
    is_escape e = true -> string_chars b -> string_chars (backslash :: e :: b)
| chars_unicode h1 h2 h3 h4 b :
    is_hex h1 = true -> is_hex h2 = true -> is_hex h3 = true -> is_hex h4 = true ->
    string_chars b -> string_chars (backslash :: "u" :: h1 :: h2 :: h3 :: h4 :: b).

(** [text d v t]: the bytes [t] are a JSON text, without space around it,
    that denotes [v] and opens at most [d] arrays and objects inside one
    another.  Space is allowed wherever JSON allows it. *)
Inductive text : N -> iface -> bytes -> Prop :=
| text_null d : text d INil (B "null")
| text_true d : text d (IBool true) (B "true")
| text_false d : text d (IBool false) (B "false")
| text_number d lit : number_literal lit -> text d (INumber lit) lit
| text_string d b : string_chars b -> text d (IString b) (quote :: b ++ [quote])
| text_slice_empty d ws : spaces ws -> text (N.succ d) (ISlice []) ("[" :: ws ++ ["]"])
| text_slice d vs body :
    text_elements d vs body -> text (N.succ d) (ISlice vs) ("[" :: body ++ ["]"])
| text_map_empty d ws : spaces ws -> text (N.succ d) (IMap []) ("{" :: ws ++ ["}"])
| text_map d ms body :
    text_members d ms body -> text (N.succ d) (IMap ms) ("{" :: body ++ ["}"])

with text_elements : N -> list iface -> bytes -> Prop :=
| elements_last d v ws1 t ws2 :
    spaces ws1 -> text d v t -> spaces ws2 ->
    text_elements d [v] (ws1 ++ t ++ ws2)
| elements_more d v vs ws1 t ws2 body :
    spaces ws1 -> text d v t -> spaces ws2 -> text_elements d vs body ->
    text_elements d (v :: vs) (ws1 ++ t ++ ws2 ++ "," :: body)

with text_members : N -> list (bytes * iface) -> bytes -> Prop :=
| members_last d k v ws1 ws2 ws3 t ws4 :
    spaces ws1 -> string_chars k -> spaces ws2 -> spaces ws3 ->
    text d v t -> spaces ws4 ->
    text_members d [(k, v)]
      (ws1 ++ quote :: k ++ quote :: ws2 ++ ":" :: ws3 ++ t ++ ws4)
| members_more d k v ms ws1 ws2 ws3 t ws4 body :
    spaces ws1 -> string_chars k -> spaces ws2 -> spaces ws3 ->
    text d v t -> spaces ws4 -> text_members d ms body ->
    text_members d ((k, v) :: ms)
      (ws1 ++ quote :: k ++ quote :: ws2 ++ ":" :: ws3 ++ t ++ ws4 ++ "," :: body).

Scheme text_mut := Minimality for text Sort Prop
  with text_elements_mut := Minimality for text_elements Sort Prop
  with text_members_mut := Minimality for text_members Sort Prop.
Combined Scheme text_mutind from text_mut, text_elements_mut, text_members_mut.



(** The input begins, after optional space, with the literal [null]. *)
Definition begins_with_null (s : bytes) : Prop :=
  exists ws rest, spaces ws /\ s = ws ++ B "null" ++ rest.



(** ** What the scanner looks at *)

(** [head_ok p rest]: the input ends here or goes on with a byte in [p]. *)
Definition head_ok (p : ascii -> bool) (rest : bytes) : Prop :=
  match rest with
  | [] => True
  | c :: _ => p c = true
  end.

Definition not_digit (c : ascii) : bool := negb (is_digit c).
Definition frac_stop (c : ascii) : bool := negb (is_digit c || (c =? ".")).
Definition exp_stop (c : ascii) : bool :=
  negb (is_digit c || (c =? "e") || (c =? "E")).

(** A byte at which the scanner ends a number. *)
Definition number_stop (c : ascii) : bool :=
  negb (is_digit c || (c =? ".") || (c =? "e") || (c =? "E")).

Definition delimited (rest : bytes) : Prop := head_ok number_stop rest.

(** The first byte of a value. *)
Definition value_start (c : ascii) : bool :=
  (c =? "[") || (c =? "{") || (c =? quote) || (c =? "n") || (c =? "t")
  || (c =? "f") || (c =? "-") || is_digit c.

End grammar.


(** * Package strings *)

Module strings.

(** [strings.Split(s, sep)] for a separator of one byte, the only kind this
    file uses ([":"]): the substrings between the separators, in order.  A
    string without separator is returned whole, the empty string too. *)
Fixpoint Split (s : string) (sep : ascii) : list string :=
  match s with
  | EmptyString => [EmptyString]
  | String c s' =>
      if c =? sep then EmptyString :: Split s' sep
      else
        match Split s' sep with
        | seg :: segs => String c seg :: segs
        | [] => [String c EmptyString]
        end
  end.

(** [strings.Join(segs, sep)], the inverse of [Split]. *)
Fixpoint Join (segs : list string) (sep : ascii) : string :=
  match segs with
  | [] => EmptyString
  | [seg] => seg
  | seg :: segs' => String.append seg (String sep (Join segs' sep))
  end.

(** [strings.Count], for one byte. *)
Fixpoint Count (s : string) (sep : ascii) : nat :=
  match s with
  | EmptyString => 0
  | String c s' => (if c =? sep then 1 else 0) + Count s' sep
  end.

(** [strings.HasPrefix]. *)
Fixpoint HasPrefix (s prefix : string) : bool :=
  match prefix with
  | EmptyString => true
  | String c prefix' =>
      match s with
      | String d s' => (c =? d) && HasPrefix s' prefix'
      | EmptyString => false
      end
  end.

(** [strings.Contains]. *)
Fixpoint Contains (s substr : string) : bool :=
  HasPrefix s substr
  || match s with
     | String _ s' => Contains s' substr
     | EmptyString => false
     end.

End strings.

(** * The data the factories handle *)

(** Go's [float64], as far as this development looks at it: prices are
    compared with [==] and [<], nothing else.  The values a JSON number
    decodes to are finite, and on finite values these comparisons form a
    decidable strict total order. *)
Class Float64 : Type := {
  float64 : Type;
  float64_eq_dec :: EqDecision float64;
  f64_lt : relation float64;
  f64_lt_dec :: RelDecision f64_lt;
  f64_lt_strict :: StrictOrder f64_lt;
  f64_lt_trichotomy :: Trichotomy f64_lt;
}.

(** The request of a subscription ([sub.Request]): the fields the
    factories read. *)
Record SubscriptionRequest : Type := {
  Symbol : string;
  Precision : string;
  Key : string;
}.

Record subscription : Type := {
  Request : SubscriptionRequest;
}.

Inductive OrderSide : Type := Bid | Ask.

Global Instance OrderSide_eq_dec : EqDecision OrderSide.
Proof. solve_decision. Defined.

Section book_types.
Context {F64 : Float64}.

(** Modelled from the spec: [bitfinex.BookUpdate], declared outside
    factories.go.  A price level carries a price, the exact integer count of
    the orders that make it up and an amount; the side it belongs to is kept
    with it. *)
Record BookUpdate : Type := {
  bu_Symbol : string;
  Price : float64;
  Count : Z;
  Amount : float64;
  Side : OrderSide;
}.

(** Modelled from the spec: [bitfinex.BookUpdateSnapshot], an ordered
    sequence of price levels. *)
Record BookUpdateSnapshot : Type := {
  Snapshot : list BookUpdate;
}.

(** Modelled from the spec: the [Orderbook] of orderbook.go, the bids and
    the asks of one symbol. *)
Record Orderbook : Type := {
  symbol : string;
  bids : list BookUpdate;
  asks : list BookUpdate;
}.

End book_types.

(** ** Other packages *)

(** What factories.go calls in the packages [convert], [ticker], [candle],
    [derivatives] and [bitfinex], and [extractSymbolResolutionFromKey] of
    this package: the types are opaque and the functions arbitrary, each
    free to fail or to panic.  [RawField] is an element of [raw], a value
    of the float64 decoding of the message. *)
Class Packages {F64 : Float64} : Type := {
  subscriptions : Type;
  RawField : Type;
  Ticker : Type;
  TickerSnapshot : Type;
  Trade : Type;
  TradeSnapshot : Type;
  Candle : Type;
  CandleSnapshot : Type;
  CandleResolution : Type;
  DerivativesStatus : Type;
  ticker_FromRaw :
    string -> list RawField -> outcome (option Ticker * option error);
  ticker_SnapshotFromRaw :
    string -> list (list RawField) ->
    outcome (option TickerSnapshot * option error);
  NewTradeFromRaw :
    string -> list RawField -> outcome (option Trade * option error);
  ToFloat64Array :
    list (list RawField) -> outcome (list (list float64) * option error);
  NewTradeSnapshotFromRaw :
    string -> list (list float64) ->
    outcome (option TradeSnapshot * option error);
  NewBookUpdateFromRaw :
    string -> string -> list RawField -> iface ->
    outcome (option BookUpdate * option error);
  NewBookUpdateSnapshotFromRaw :
    string -> string -> list (list float64) -> iface ->
    outcome (option BookUpdateSnapshot * option error);
  extractSymbolResolutionFromKey :
    string -> outcome (string * CandleResolution * option error);
  candle_FromRaw :
    string -> CandleResolution -> list RawField ->
    outcome (option Candle * option error);
  candle_SnapshotFromRaw :
    string -> CandleResolution -> list (list RawField) ->
    outcome (option CandleSnapshot * option error);
  derivatives_FromWsRaw :
    string -> list RawField -> outcome (option DerivativesStatus * option error);
}.

(** Go objects of type [Orderbook] live in a heap; the map of the book
    factory holds pointers to them. *)
Abbreviation loc := positive.

Section model.
Context {F64 : Float64} {Pkg : Packages}.

(** An [interface{}] result of a factory: the untyped [nil], or a pointer
    of one of the message types (which may itself be [nil]). *)
Inductive message : Type :=
| MNil
| MTicker (p : option Ticker)
| MTickerSnapshot (p : option TickerSnapshot)
| MTrade (p : option Trade)
| MTradeSnapshot (p : option TradeSnapshot)
| MBookUpdate (p : option BookUpdate)
| MBookUpdateSnapshot (p : option BookUpdateSnapshot)
| MCandle (p : option Candle)
| MCandleSnapshot (p : option CandleSnapshot)
| MDerivativesStatus (p : option DerivativesStatus).

(** ** The order book (orderbook.go) *)

(** [before side p q]: a level priced [p] stands before one priced [q],
    bids from the highest price down and asks from the lowest up. *)
Definition before (side : OrderSide) (p q : float64) : Prop :=
  match side with
  | Bid => f64_lt q p
  | Ask => f64_lt p q
  end.

Global Instance before_dec side : RelDecision (before side).
Proof. intros p q. destruct side; simpl; apply _. Defined.

(** The levels of one side without those at price [p]. *)
Definition remove_level (p : float64) (levels : list BookUpdate)
  : list BookUpdate :=
  filter (λ l, Price l ≠ p) levels.

(** [u] put before the first level it stands before. *)
Fixpoint insert_level (u : BookUpdate) (levels : list BookUpdate)
  : list BookUpdate :=
  match levels with
  | [] => [u]
  | l :: levels' =>
      if decide (before (Side u) (Price u) (Price l)) then u :: l :: levels'
      else l :: insert_level u levels'
  end.

Definition upsert_level (u : BookUpdate) (levels : list BookUpdate)
  : list BookUpdate :=
  insert_level u (remove_level (Price u) levels).

Definition side_of (ob : Orderbook) (side : OrderSide) : list BookUpdate :=
  match side with
  | Bid => bids ob
  | Ask => asks ob
  end.

Definition set_side (ob : Orderbook) (side : OrderSide)
    (levels : list BookUpdate) : Orderbook :=
  match side with
  | Bid => {| symbol := symbol ob; bids := levels; asks := asks ob |}
  | Ask => {| symbol := symbol ob; bids := bids ob; asks := levels |}
  end.

(** Modelled from the spec: [Orderbook.UpdateWith], of orderbook.go.  "A
    count greater than zero upserts the level (replacing any existing level
    at that price on the relevant side), a count of zero removes the level
    if present, no-op if absent"; a new level "is inserted in sorted
    position".  The spec gives a negative count no meaning: the book is
    left as it is.  The update is a pointer, whose fields cannot be read
    when it is [nil]. *)
Definition UpdateWith (ob : Orderbook) (bu : option BookUpdate)
  : outcome Orderbook :=
  match bu with
  | None => Panicked
  | Some u =>
      let levels := side_of ob (Side u) in
      if (0 <? Count u)%Z then
        Returned (set_side ob (Side u) (upsert_level u levels))
      else if (Count u =? 0)%Z then
        Returned (set_side ob (Side u) (remove_level (Price u) levels))
      else Returned ob
  end.

Definition is_side (side : OrderSide) (l : BookUpdate) : Prop := Side l = side.

Global Instance is_side_dec side l : Decision (is_side side l).
Proof. unfold is_side. apply _. Defined.

(** Modelled from the spec: [Orderbook.SetWithSnapshot], of orderbook.go.
    The book is populated "wholesale from the snapshot (never merging with
    any prior state for that symbol)": its bids are the bids of the
    snapshot and its asks the asks of the snapshot, in the order of the
    snapshot. *)
Definition SetWithSnapshot (ob : Orderbook) (bs : option BookUpdateSnapshot)
  : outcome Orderbook :=
  match bs with
  | None => Panicked
  | Some s =>
      Returned {| symbol := symbol ob;
                  bids := filter (is_side Bid) (Snapshot s);
                  asks := filter (is_side Ask) (Snapshot s) |}
  end.

(** The invariant of a side: the levels are in order, strictly, so that no
    two of them have the same price. *)
Definition ordered (side : OrderSide) (a b : BookUpdate) : Prop :=
  before side (Price a) (Price b).

Definition sorted_levels (side : OrderSide) (levels : list BookUpdate) : Prop :=
  StronglySorted (ordered side) levels.

(** The invariant of a book: both sides in order, every level on its side
    and none with a count of zero. *)
Definition side_ok (side : OrderSide) (levels : list BookUpdate) : Prop :=
  sorted_levels side levels
  /\ Forall (λ l, Side l = side /\ (0 < Count l)%Z) levels.

Definition consistent (ob : Orderbook) : Prop :=
  side_ok Bid (bids ob) /\ side_ok Ask (asks ob).

(** ** The state the factories share *)

Record world : Type := {
  heap : gmap loc Orderbook;
  orderbooks : gmap string loc;
}.

(** A method of a factory: it runs in a world, returns or panics, and
    leaves a world. *)
Definition M (A : Type) : Type := world -> outcome A * world.

Definition ret {A : Type} (a : A) : M A := λ w, (Returned a, w).
Definition panic {A : Type} : M A := λ w, (Panicked, w).

Definition bind {A C : Type} (m : M A) (k : A -> M C) : M C :=
  λ w,
    match m w with
    | (Returned a, w') => k a w'
    | (Panicked, w') => (Panicked, w')
    end.

(** A call that does not touch the world. *)
Definition call {A : Type} (o : outcome A) : M A := λ w, (o, w).

End model.

Notation "'let!' x := m 'in' k" := (bind m (λ x, k))
  (at level 10, x name, m at level 100, k at level 200, only parsing).
Notation "'let!' ' p := m 'in' k" := (bind m (λ p, k))
  (at level 10, p strict pattern, m at level 100, k at level 200, only parsing).

(** A [(interface{}, error)] result. *)
Abbreviation result := (message * option error)%type.

(** * The factories (factories.go) *)

Section factories.
Context {F64 : Float64} {Pkg : Packages}.

(** A method that neither reads nor writes the world: it has one outcome,
    and leaves every world as it finds it. *)
Definition stateless {A : Type} (m : M A) : Prop :=
  exists o, forall w, m w = (o, w).

(** [type messageFactory interface]. *)
Class messageFactory (F : Type) : Type := {
  Build : F -> subscription -> string -> list RawField -> bytes -> M result;
  BuildSnapshot : F -> subscription -> list (list RawField) -> bytes -> M result;
}.

(** ** Tickers *)

Record TickerFactory : Type := {
  ticker_subscriptions : subscriptions;
}.

Definition newTickerFactory (subs : subscriptions) : TickerFactory :=
  {| ticker_subscriptions := subs |}.

Definition TickerFactory_Build (f : TickerFactory) (sub : subscription)
    (objType : string) (raw : list RawField) (raw_bytes : bytes) : M result :=
  let! '(t, err) := call (ticker_FromRaw (Symbol (Request sub)) raw) in
  ret (MTicker t, err).

Definition TickerFactory_BuildSnapshot (f : TickerFactory) (sub : subscription)
    (raw : list (list RawField)) (raw_bytes : bytes) : M result :=
  let! '(t, err) := call (ticker_SnapshotFromRaw (Symbol (Request sub)) raw) in
  ret (MTickerSnapshot t, err).

Global Instance TickerFactory_messageFactory : messageFactory TickerFactory :=
  {| Build := TickerFactory_Build; BuildSnapshot := TickerFactory_BuildSnapshot |}.

(** ** Trades *)

Record TradeFactory : Type := {
  trade_subscriptions : subscriptions;
}.

Definition newTradeFactory (subs : subscriptions) : TradeFactory :=
  {| trade_subscriptions := subs |}.

Definition TradeFactory_Build (f : TradeFactory) (sub : subscription)
    (objType : string) (raw : list RawField) (raw_bytes : bytes) : M result :=
  if String.eqb "tu" objType then
    (* do not process TradeUpdate messages on public feed *)
    ret (MNil, None)
  else
    let! '(t, err) := call (NewTradeFromRaw (Symbol (Request sub)) raw) in
    ret (MTrade t, err).

Definition TradeFactory_BuildSnapshot (f : TradeFactory) (sub : subscription)
    (raw : list (list RawField)) (raw_bytes : bytes) : M result :=
  let! '(converted, err) := call (ToFloat64Array raw) in
  match err with
  | Some e => ret (MNil, Some e)
  | None =>
      let! '(t, err) :=
        call (NewTradeSnapshotFromRaw (Symbol (Request sub)) converted) in
      ret (MTradeSnapshot t, err)
  end.

Global Instance TradeFactory_messageFactory : messageFactory TradeFactory :=
  {| Build := TradeFactory_Build; BuildSnapshot := TradeFactory_BuildSnapshot |}.

(** ** Books *)

(** The [orderbooks] map of the factory is in the world, and shared; its
    mutex orders the calls that run at the same time and is not part of
    this sequential model. *)
Record BookFactory : Type := {
  book_subscriptions : subscriptions;
  manageBooks : bool;
}.

(** [raw_json_number[1]]: indexing a slice out of its range, or a [nil]
    slice, panics. *)
Definition index1 (raw_json_number : option (list iface)) : outcome iface :=
  match raw_json_number with
  | Some (_ :: x :: _) => Returned x
  | _ => Panicked
  end.

(** [orderbook.UpdateWith(update)] for the book at [l], in place.  A
    pointer that is [nil] (no object in the heap) cannot be followed. *)
Definition Orderbook_UpdateWith (l : loc) (update : option BookUpdate) : M unit :=
  λ w,
    match heap w !! l with
    | Some ob =>
        match UpdateWith ob update with
        | Returned ob' =>
            (Returned (), {| heap := <[l := ob']> (heap w);
                              orderbooks := orderbooks w |})
        | Panicked => (Panicked, w)
        end
    | None => (Panicked, w)
    end.

Definition Orderbook_SetWithSnapshot (l : loc)
    (update : option BookUpdateSnapshot) : M unit :=
  λ w,
    match heap w !! l with
    | Some ob =>
        match SetWithSnapshot ob update with
        | Returned ob' =>
            (Returned (), {| heap := <[l := ob']> (heap w);
                              orderbooks := orderbooks w |})
        | Panicked => (Panicked, w)
        end
    | None => (Panicked, w)
    end.

(** [f.orderbooks[symbol]], with the [ok] of the lookup. *)
Definition lookup_orderbook (sym : string) : M (option loc) :=
  λ w, (Returned (orderbooks w !! sym), w).

(** [f.orderbooks[symbol] = &Orderbook{...}]: a new object, and the entry
    of the map set to it. *)
Definition install_orderbook (sym : string) (ob : Orderbook) : M unit :=
  λ w,
    let l := fresh (dom (heap w)) in
    (Returned (), {| heap := <[l := ob]> (heap w);
                      orderbooks := <[sym := l]> (orderbooks w) |}).

(** The world after the book at [l] has become [ob']. *)
Definition with_book (w : world) (l : loc) (ob' : Orderbook) : world :=
  {| heap := <[l := ob']> (heap w); orderbooks := orderbooks w |}.

Definition BookFactory_Build (f : BookFactory) (sub : subscription)
    (objType : string) (raw : list RawField) (raw_bytes : bytes) : M result :=
  (* we need to parse the bytes using json numbers since they store the
     exact string value and not a float64 representation *)
  let '(raw_json_number, str_conv_err) := ConvertBytesToJsonNumberArray raw_bytes in
  match str_conv_err with
  | Some e => ret (MNil, Some e)
  | None =>
      let! count := call (index1 raw_json_number) in
      let! '(update, err) :=
        call (NewBookUpdateFromRaw (Symbol (Request sub)) (Precision (Request sub))
                raw count) in
      let! _ :=
        if manageBooks f then
          let! orderbook := lookup_orderbook (Symbol (Request sub)) in
          match orderbook with
          | Some l => Orderbook_UpdateWith l update
          | None => ret ()
          end
        else ret () in
      ret (MBookUpdate update, err)
  end.

Definition BookFactory_BuildSnapshot (f : BookFactory) (sub : subscription)
    (raw : list (list RawField)) (raw_bytes : bytes) : M result :=
  let! '(converted, err) := call (ToFloat64Array raw) in
  match err with
  | Some e => ret (MNil, Some e)
  | None =>
      (* parse the bytes using the json number value to store the exact
         string value *)
      let '(raw_json_number, str_conv_err) :=
        ConvertBytesToJsonNumberArray raw_bytes in
      match str_conv_err with
      | Some e => ret (MNil, Some e)
      | None =>
          let! count := call (index1 raw_json_number) in
          let! '(update, err2) :=
            call (NewBookUpdateSnapshotFromRaw (Symbol (Request sub))
                    (Precision (Request sub)) converted count) in
          match err2 with
          | Some e => ret (MNil, Some e)
          | None =>
              let! _ :=
                if manageBooks f then
                  (* create new orderbook *)
                  let! _ :=
                    install_orderbook (Symbol (Request sub))
                      {| symbol := Symbol (Request sub); bids := []; asks := [] |} in
                  let! orderbook := lookup_orderbook (Symbol (Request sub)) in
                  match orderbook with
                  | Some l => Orderbook_SetWithSnapshot l update
                  | None => panic
                  end
                else ret () in
              ret (MBookUpdateSnapshot update, err)
          end
      end
  end.

Global Instance BookFactory_messageFactory : messageFactory BookFactory :=
  {| Build := BookFactory_Build; BuildSnapshot := BookFactory_BuildSnapshot |}.

(** ** Candles *)

Record CandlesFactory : Type := {
  candles_subscriptions : subscriptions;
}.

Definition newCandlesFactory (subs : subscriptions) : CandlesFactory :=
  {| candles_subscriptions := subs |}.

Definition CandlesFactory_Build (f : CandlesFactory) (sub : subscription)
    (objType : string) (raw : list RawField) (raw_bytes : bytes) : M result :=
  let! '(sym, res, err) := call (extractSymbolResolutionFromKey (Key (Request sub))) in
  match err with
  | Some e => ret (MNil, Some e)
  | None =>
      let! '(candle, err) := call (candle_FromRaw sym res raw) in
      ret (MCandle candle, err)
  end.

Definition CandlesFactory_BuildSnapshot (f : CandlesFactory) (sub : subscription)
    (raw : list (list RawField)) (raw_bytes : bytes) : M result :=
  let! '(sym, res, err) := call (extractSymbolResolutionFromKey (Key (Request sub))) in
  match err with
  | Some e => ret (MNil, Some e)
  | None =>
      let! '(snap, err) := call (candle_SnapshotFromRaw sym res raw) in
      ret (MCandleSnapshot snap, err)
  end.

Global Instance CandlesFactory_messageFactory : messageFactory CandlesFactory :=
  {| Build := CandlesFactory_Build; BuildSnapshot := CandlesFactory_BuildSnapshot |}.

(** ** Derivative status *)

Record StatsFactory : Type := {
  stats_subscriptions : subscriptions;
}.

Definition newStatsFactory (subs : subscriptions) : StatsFactory :=
  {| stats_subscriptions := subs |}.

(** The message of the error of [StatsFactory.Build]:
    [fmt.Errorf("unable to parse key to symbol %s", key)]. *)
Definition unable_to_parse (key : string) : error :=
  Errorf (String.append "unable to parse key to symbol " key).

Definition StatsFactory_Build (f : StatsFactory) (sub : subscription)
    (objType : string) (raw : list RawField) (raw_bytes : bytes) : M result :=
  let splits := strings.Split (Key (Request sub)) ":" in
  if negb (length splits =? 3)%nat then
    ret (MNil, Some (unable_to_parse (Key (Request sub))))
  else
    (* [splits[1]] and [splits[2]] are in range: [len(splits)] is 3 *)
    let symbol :=
      String.append (nth 1 splits EmptyString)
        (String.append ":" (nth 2 splits EmptyString)) in
    let! '(d, err) := call (derivatives_FromWsRaw symbol raw) in
    ret (MDerivativesStatus d, err).

Definition StatsFactory_BuildSnapshot (f : StatsFactory) (sub : subscription)
    (raw : list (list RawField)) (raw_bytes : bytes) : M result :=
  (* no snapshots *)
  ret (MNil, None).

Global Instance StatsFactory_messageFactory : messageFactory StatsFactory :=
  {| Build := StatsFactory_Build; BuildSnapshot := StatsFactory_BuildSnapshot |}.

End factories.

(** * A test bed *)

(** An implementation of the other packages, to run the factories on
    concrete messages: prices and amounts are integers, a raw field is an
    integer, and a message of any other channel is the fields it was built
    from. *)
Module testbed.

#[export] Instance Z_lt_trichotomy : Trichotomy Z.lt.
Proof. intros x y. lia. Qed.

#[export] Instance Z_Float64 : Float64 := {|
  float64 := Z;
  f64_lt := Z.lt;
|}.

Definition too_short : error := Errorf "data slice too short for book update".

(** A level [[price, count, amount]]: a positive amount is a bid. *)
Definition level_of (sym : string) (raw : list Z) : option BookUpdate :=
  match raw with
  | [price; count; amount] =>
      Some {| bu_Symbol := sym; Price := price; Count := count;
              Amount := Z.abs amount;
              Side := if (0 <? amount)%Z then Bid else Ask |}
  | _ => None
  end.

Definition book_update (sym prec : string) (raw : list Z) (count : iface)
  : outcome (option BookUpdate * option error) :=
  match level_of sym raw with
  | Some u => Returned (Some u, None)
  | None => Returned (None, Some too_short)
  end.

Definition book_snapshot (sym prec : string) (rows : list (list Z)) (count : iface)
  : outcome (option BookUpdateSnapshot * option error) :=
  match mapM (level_of sym) rows with
  | Some levels => Returned (Some {| Snapshot := levels |}, None)
  | None => Returned (None, Some too_short)
  end.

Definition symbol_resolution (key : string)
  : outcome (string * string * option error) :=
  match strings.Split key ":" with
  | [_; res; sym] => Returned (sym, res, None)
  | _ => Returned (EmptyString, EmptyString, Some (Errorf "could not parse key"))
  end.

#[export] Instance packages : Packages := {|
  subscriptions := unit;
  RawField := Z;
  Ticker := list Z;
  TickerSnapshot := list (list Z);
  Trade := list Z;
  TradeSnapshot := list (list Z);
  Candle := list Z;
  CandleSnapshot := list (list Z);
  CandleResolution := string;
  DerivativesStatus := string * list Z;
  ticker_FromRaw sym raw := Returned (Some raw, None);
  ticker_SnapshotFromRaw sym raw := Returned (Some raw, None);
  NewTradeFromRaw sym raw := Returned (Some raw, None);
  ToFloat64Array raw := Returned (raw, None);
  NewTradeSnapshotFromRaw sym raw := Returned (Some raw, None);
  NewBookUpdateFromRaw := book_update;
  NewBookUpdateSnapshotFromRaw := book_snapshot;
  extractSymbolResolutionFromKey := symbol_resolution;
  candle_FromRaw sym res raw := Returned (Some raw, None);
  candle_SnapshotFromRaw sym res raw := Returned (Some raw, None);
  derivatives_FromWsRaw sym raw := Returned (Some (sym, raw), None);
|}.

Definition sub_btc : subscription :=
  {| Request := {| Symbol := "tBTCUSD"; Precision := "P0";
                   Key := "trade:1m:tBTCUSD" |} |}.

Definition sub_deriv : subscription :=
  {| Request := {| Symbol := "tBTCF0:USTF0"; Precision := "";
                   Key := "deriv:tBTCF0:USTF0" |} |}.

Definition books (manage : bool) : BookFactory :=
  {| book_subscriptions := (); manageBooks := manage |}.

Definition tickers : TickerFactory := {| ticker_subscriptions := () |}.
Definition trades : TradeFactory := {| trade_subscriptions := () |}.
Definition candles : CandlesFactory := {| candles_subscriptions := () |}.
Definition stats : StatsFactory := {| stats_subscriptions := () |}.

Definition empty_world : world := {| heap := ∅; orderbooks := ∅ |}.

(** A bid of 2 orders at 100 and an ask of 1 order at 101. *)
Definition bid100 : BookUpdate :=
  {| bu_Symbol := "tBTCUSD"; Price := 100%Z; Count := 2; Amount := 5%Z; Side := Bid |}.
Definition ask101 : BookUpdate :=
  {| bu_Symbol := "tBTCUSD"; Price := 101%Z; Count := 1; Amount := 7%Z; Side := Ask |}.

Definition book_btc : Orderbook :=
  {| symbol := "tBTCUSD"; bids := [bid100]; asks := [ask101] |}.

(** A world in which [tBTCUSD] has the book [book_btc]. *)
Definition world_btc : world :=
  {| heap := {[ 1%positive := book_btc ]};
     orderbooks := {[ "tBTCUSD"%string := 1%positive ]} |}.

(** A subscription to a symbol that has no book in [world_btc]. *)
Definition sub_eth : subscription :=
  {| Request := {| Symbol := "tETHUSD"; Precision := "P0"; Key := "" |} |}.

(** The update that removes the bids at 100. *)
Definition remove100 : BookUpdate :=
  {| bu_Symbol := "tBTCUSD"; Price := 100%Z; Count := 0; Amount := 5%Z; Side := Bid |}.

(** The snapshot of two levels, a bid at 102 and an ask at 103. *)
Definition snapshot2 : BookUpdateSnapshot :=
  {| Snapshot :=
       [ {| bu_Symbol := "tBTCUSD"; Price := 102%Z; Count := 3; Amount := 5%Z;
            Side := Bid |};
         {| bu_Symbol := "tBTCUSD"; Price := 103%Z; Count := 1; Amount := 2%Z;
            Side := Ask |} ] |}.

End testbed.

(** * More about the store *)

Section store.
Context {F64 : Float64} {Pkg : Packages}.

(** The book without levels that [BuildSnapshot] starts from. *)
Definition empty_book (sym : string) : Orderbook :=
  {| symbol := sym; bids := []; asks := [] |}.

(** The world after [f.orderbooks[sym] = &Orderbook{...}] for a new object
    [ob]. *)
Definition installed (w : world) (sym : string) (ob : Orderbook) : world :=
  {| heap := <[fresh (dom (heap w)) := ob]> (heap w);
     orderbooks := <[sym := fresh (dom (heap w))]> (orderbooks w) |}.

(** No entry of the map is a pointer without object (a [nil] book). *)
Definition no_nil_book (w : world) : Prop :=
  forall sym l, orderbooks w !! sym = Some l -> is_Some (heap w !! l).

(** What [Build] does once its update is constructed. *)
Definition apply_update (sym : string) (update : option BookUpdate)
    (err : option error) (w : world) : outcome result * world :=
  match orderbooks w !! sym with
  | Some l =>
      match Orderbook_UpdateWith l update w with
      | (Returned _, w') => (Returned (MBookUpdate update, err), w')
      | (Panicked, w') => (Panicked, w')
      end
  | None => (Returned (MBookUpdate update, err), w)
  end.

(** What [BuildSnapshot] does once its snapshot is constructed. *)
Definition apply_snapshot (sym : string) (update : option BookUpdateSnapshot)
    (w : world) : outcome result * world :=
  match SetWithSnapshot (empty_book sym) update with
  | Returned ob' =>
      (Returned (MBookUpdateSnapshot update, None), installed w sym ob')
  | Panicked => (Panicked, installed w sym (empty_book sym))
  end.

End store.

(** ** A second test bed *)

(** The packages of the test bed with a conversion that rejects every
    row. *)
Module strict_testbed.
Import testbed.

Definition not_a_number : error := Errorf "value is not a float64".

Definition packages : Packages := {|
  subscriptions := unit;
  RawField := Z;
  Ticker := list Z;
  TickerSnapshot := list (list Z);
  Trade := list Z;
  TradeSnapshot := list (list Z);
  Candle := list Z;
  CandleSnapshot := list (list Z);
  CandleResolution := string;
  DerivativesStatus := string * list Z;
  ticker_FromRaw sym raw := Returned (Some raw, None);
  ticker_SnapshotFromRaw sym raw := Returned (Some raw, None);
  NewTradeFromRaw sym raw := Returned (Some raw, None);
  ToFloat64Array raw := Returned ([], Some not_a_number);
  NewTradeSnapshotFromRaw sym raw := Returned (Some raw, None);
  NewBookUpdateFromRaw := book_update;
  NewBookUpdateSnapshotFromRaw := book_snapshot;
  extractSymbolResolutionFromKey := symbol_resolution;
  candle_FromRaw sym res raw := Returned (Some raw, None);
  candle_SnapshotFromRaw sym res raw := Returned (Some raw, None);
  derivatives_FromWsRaw sym raw := Returned (Some (sym, raw), None);
|}.

Definition books (manage : bool) : @BookFactory Z_Float64 packages :=
  @Build_BookFactory Z_Float64 packages () manage.

Definition trades : @TradeFactory Z_Float64 packages :=
  @Build_TradeFactory Z_Float64 packages ().

End strict_testbed.

(** ** More worlds for the test bed *)

Module testbed_worlds.
Import testbed.

(** A book for [tETHUSD], without levels. *)
Definition book_eth : Orderbook :=
  {| symbol := "tETHUSD"; bids := []; asks := [] |}.

(** A world with a book for [tBTCUSD] and another for [tETHUSD]. *)
Definition world_two : world :=
  {| heap := {[ 1%positive := book_btc; 2%positive := book_eth ]};
     orderbooks := {[ "tBTCUSD"%string := 1%positive;
                      "tETHUSD"%string := 2%positive ]} |}.

(** A subscription whose key has no colon. *)
Definition sub_badkey : subscription :=
  {| Request := {| Symbol := "tBTCUSD"; Precision := "P0"; Key := "badkey" |} |}.

(** The world that a snapshot of two levels, one on each side, leaves when
    it is built in [world_btc] by the book factory that manages its books. *)
Definition world_after_snapshot : world :=
  snd (BookFactory_BuildSnapshot (books true) sub_btc
         [[102; 3; 5]; [103; 1; -2]]%Z (B "[17,[[102,3,5],[103,1,-2]]]") world_btc).

End testbed_worlds.

(** ** A third test bed *)

(** The packages of the test bed with a constructor of book updates that
    returns, beside its error, the update as far as it was filled: the
    price when there is one, with a count and an amount of zero, on the
    side of the bids. *)
Module partial_testbed.
Import testbed.

Definition unfilled (sym : string) (price : Z) : BookUpdate :=
  {| bu_Symbol := sym; Price := price; Count := 0%Z; Amount := 0%Z; Side := Bid |}.

Definition book_update (sym prec : string) (raw : list Z) (count : iface)
  : outcome (option BookUpdate * option error) :=
  match level_of sym raw with
  | Some u => Returned (Some u, None)
  | None => Returned (Some (unfilled sym (hd 0%Z raw)), Some too_short)
  end.

Definition packages : Packages := {|
  subscriptions := unit;
  RawField := Z;
  Ticker := list Z;
  TickerSnapshot := list (list Z);
  Trade := list Z;
  TradeSnapshot := list (list Z);
  Candle := list Z;
  CandleSnapshot := list (list Z);
  CandleResolution := string;
  DerivativesStatus := string * list Z;
  ticker_FromRaw sym raw := Returned (Some raw, None);
  ticker_SnapshotFromRaw sym raw := Returned (Some raw, None);
  NewTradeFromRaw sym raw := Returned (Some raw, None);
  ToFloat64Array raw := Returned (raw, None);
  NewTradeSnapshotFromRaw sym raw := Returned (Some raw, None);
  NewBookUpdateFromRaw := book_update;
  NewBookUpdateSnapshotFromRaw := book_snapshot;
  extractSymbolResolutionFromKey := symbol_resolution;
  candle_FromRaw sym res raw := Returned (Some raw, None);
  candle_SnapshotFromRaw sym res raw := Returned (Some raw, None);
  derivatives_FromWsRaw sym raw := Returned (Some (sym, raw), None);
|}.

Definition books (manage : bool) : @BookFactory Z_Float64 packages :=
  @Build_BookFactory Z_Float64 packages () manage.

End partial_testbed.
(** * The decoder accepts the grammar *)

Module decoder_facts.
Import grammar.

Lemma head_ok_impl (p q : ascii -> bool) rest :
  (forall c, p c = true -> q c = true) -> head_ok p rest -> head_ok q rest.
Proof. destruct rest; simpl; auto. Qed.

Lemma is_space_cases c :
  is_space c = true -> c = " " \/ c = "009" \/ c = "010" \/ c = "013".
Proof.
  unfold is_space. rewrite !orb_true_iff, !Ascii.eqb_eq. tauto.
Qed.

Lemma is_space_stop c : is_space c = true -> number_stop c = true.
Proof. intros H. destruct (is_space_cases c H) as [->|[->|[->| ->]]]; reflexivity. Qed.

Lemma delimited_spaces ws c r :
  spaces ws -> number_stop c = true -> delimited (ws ++ c :: r).
Proof.
  intros Hws Hc. destruct Hws as [|w ws Hw _]; simpl in *; [done|].
  by apply is_space_stop.
Qed.

Lemma skip_space_app ws c r :
  spaces ws -> is_space c = false -> skip_space (ws ++ c :: r) = c :: r.
Proof.
  intros Hws Hc. induction Hws as [|w ws Hw _ IH]; simpl in *.
  - by rewrite Hc.
  - by rewrite Hw.
Qed.

Lemma skip_space_all ws : spaces ws -> skip_space ws = [].
Proof. induction 1 as [|w ws Hw _ IH]; simpl in *; [done|]. by rewrite Hw. Qed.

Lemma span_digits_app d rest :
  all_digits d -> head_ok not_digit rest -> span_digits (d ++ rest) = (d, rest).
Proof.
  intros Hd Hr. induction Hd as [|c d Hc _ IH]; simpl in *.
  - destruct rest as [|c r]; simpl in *; [done|].
    unfold not_digit in Hr. apply negb_true_iff in Hr. by rewrite Hr.
  - by rewrite Hc, IH.
Qed.

Lemma digits1_app d rest :
  d <> [] -> all_digits d -> head_ok not_digit rest ->
  digits1 (d ++ rest) = Some (d, rest).
Proof.
  intros Hne Hd Hr. unfold digits1. rewrite span_digits_app by done.
  by destruct d.
Qed.

Lemma digit19_digit c : is_digit19 c = true -> is_digit c = true.
Proof.
  unfold is_digit19, is_digit. rewrite !andb_true_iff, !Nat.leb_le. lia.
Qed.

Lemma digit_not c k : is_digit c = true -> is_digit k = false -> (c =? k) = false.
Proof. intros Hc Hk. destruct (Ascii.eqb_spec c k) as [->|]; congruence. Qed.

Lemma lex_int_app i rest :
  integer_part i -> head_ok not_digit rest -> lex_int (i ++ rest) = Some (i, rest).
Proof.
  intros Hi Hr. destruct Hi as [|c d Hc Hd]; [done|]. simpl.
  destruct (Ascii.eqb_spec c "0") as [->|_]; [done|].
  by rewrite Hc, span_digits_app.
Qed.

Lemma lex_frac_app f rest :
  fraction_part f -> head_ok frac_stop rest -> lex_frac (f ++ rest) = Some (f, rest).
Proof.
  intros Hf Hr. destruct Hf as [|d Hne Hd]; simpl.
  - destruct rest as [|c r]; [done|]. simpl in *. unfold frac_stop in Hr.
    rewrite negb_true_iff, !orb_false_iff in Hr.
    by destruct Hr as [_ ->].
  - rewrite digits1_app; [done..|].
    eapply head_ok_impl, Hr. intros c. unfold frac_stop, not_digit.
    rewrite !negb_true_iff, !orb_false_iff. tauto.
Qed.

Lemma lex_exp_app e rest :
  exponent_part e -> head_ok exp_stop rest -> lex_exp (e ++ rest) = Some (e, rest).
Proof.
  intros He Hr. destruct He as [|c sg d Hc Hsg Hne Hd]; simpl.
  - destruct rest as [|c r]; [done|]. simpl in *. unfold exp_stop in Hr.
    rewrite negb_true_iff, !orb_false_iff in Hr.
    by destruct Hr as [[_ ->] ->].
  - assert ((c =? "e") || (c =? "E") = true) as ->
      by (destruct Hc as [-> | ->]; reflexivity).
    assert (lex_sign ((sg ++ d) ++ rest) = (sg, d ++ rest)) as ->.
    { destruct Hsg; simpl; try done.
      destruct Hd as [|x d Hx _]; [done|]. simpl in *.
      rewrite (digit_not x "+"), (digit_not x "-"); done. }
    rewrite digits1_app; [done..|].
    eapply head_ok_impl, Hr. intros x. unfold exp_stop, not_digit.
    rewrite !negb_true_iff, !orb_false_iff. tauto.
Qed.

Lemma integer_head i :
  integer_part i -> exists c r, i = c :: r /\ is_digit c = true.
Proof. destruct 1 as [|c d Hc _]; eauto using digit19_digit. Qed.

Lemma lex_number_app lit rest :
  number_literal lit -> delimited rest -> lex_number (lit ++ rest) = Some (lit, rest).
Proof.
  intros [m i f e Hm Hi Hf He] Hr. unfold lex_number.
  assert (head_ok exp_stop rest) as Hre.
  { eapply head_ok_impl, Hr. intros x. unfold exp_stop, number_stop.
    rewrite !negb_true_iff, !orb_false_iff. tauto. }
  assert (head_ok frac_stop (e ++ rest)) as Hde.
  { destruct He as [|c ? ? [-> | ->]]; [|done..]. simpl.
    eapply head_ok_impl, Hr. intros x. unfold frac_stop, number_stop.
    rewrite !negb_true_iff, !orb_false_iff. tauto. }
  assert (head_ok not_digit (f ++ e ++ rest)) as Hdf.
  { destruct Hf; [|done]. simpl.
    eapply head_ok_impl, Hde. intros x. unfold frac_stop, not_digit.
    rewrite !negb_true_iff, !orb_false_iff. tauto. }
  assert (lex_minus ((m ++ i ++ f ++ e) ++ rest) = (m, i ++ f ++ e ++ rest)) as ->.
  { rewrite <- !app_assoc. destruct Hm; [|done].
    destruct (integer_head i Hi) as (c & r & -> & Hc). simpl.
    by rewrite (digit_not c "-"). }
  rewrite lex_int_app by done.
  rewrite lex_frac_app by done. by rewrite lex_exp_app.
Qed.

Lemma string_body_app b rest :
  string_chars b -> string_body (b ++ quote :: rest) = Some (b, rest).
Proof.
  induction 1 as [|c b Hq Hb Hc _ IH|e b He _ IH|h1 h2 h3 h4 b H1 H2 H3 H4 _ IH].
  - done.
  - simpl. destruct (Ascii.eqb_spec c quote); [done|].
    destruct (Ascii.eqb_spec c backslash); [done|]. by rewrite Hc, IH.
  - simpl. by rewrite He, IH.
  - simpl. by rewrite H1, H2, H3, H4, IH.
Qed.

Lemma number_head lit :
  number_literal lit ->
  exists c r, lit = c :: r /\ (c = "-" \/ is_digit c = true).
Proof.
  intros [m i f e Hm Hi _ _].
  destruct (integer_head i Hi) as (c & r & -> & Hc).
  destruct Hm; simpl; eauto.
Qed.

Lemma text_head d v t :
  text d v t -> exists c r, t = c :: r /\ value_start c = true.
Proof.
  destruct 1 as [| | |? lit Hlit| | | | |]; try (eexists _, _; split; reflexivity).
  destruct (number_head lit Hlit) as (c & r & -> & [-> | Hc]).
  - eexists _, _; split; reflexivity.
  - eexists _, _; split; [reflexivity|]. unfold value_start. rewrite Hc.
    by rewrite !orb_true_r.
Qed.

Lemma value_start_cases c :
  value_start c = true ->
  c = "[" \/ c = "{" \/ c = quote \/ c = "n" \/ c = "t" \/ c = "f" \/ c = "-"
  \/ is_digit c = true.
Proof.
  unfold value_start. rewrite !orb_true_iff, !Ascii.eqb_eq. tauto.
Qed.

Lemma value_start_not c k :
  value_start c = true -> value_start k = false -> (c =? k) = false.
Proof. intros Hc Hk. destruct (Ascii.eqb_spec c k) as [->|]; congruence. Qed.

Lemma value_start_not_space c : value_start c = true -> is_space c = false.
Proof.
  intros Hc. destruct (is_space c) eqn:Hs; [|done].
  destruct (is_space_cases c Hs) as [->|[->|[->| ->]]]; discriminate Hc.
Qed.

#[local] Arguments lex_number : simpl never.
#[local] Arguments string_body : simpl never.
#[local] Arguments skip_space : simpl never.

Ltac norm_app := repeat (rewrite <- ?app_assoc; cbn [app]).
Ltac norm_len H := repeat (rewrite ?length_app in H; cbn [length] in H).

Lemma elements_head d vs body :
  text_elements d vs body ->
  exists ws c r, spaces ws /\ body = ws ++ c :: r /\ value_start c = true.
Proof.
  destruct 1 as [d v ws1 t ws2 Hws1 Ht _|d v vs ws1 t ws2 body Hws1 Ht _ _];
    destruct (text_head _ _ _ Ht) as (c & r & -> & Hc);
    eexists ws1, c, _; (split; [done|split; [|done]]); simpl; reflexivity.
Qed.

Lemma members_head d ms body :
  text_members d ms body ->
  exists ws r, spaces ws /\ body = ws ++ quote :: r.
Proof. destruct 1; eauto. Qed.

Lemma value_number f depth ws lit rest :
  spaces ws -> number_literal lit -> delimited rest ->
  value (S f) depth (ws ++ lit ++ rest) = Some (INumber lit, rest).
Proof.
  intros Hws Hlit Hr.
  destruct (number_head lit Hlit) as (c & r & Heq & Hc).
  pose proof (lex_number_app lit rest Hlit Hr) as Hlex. subst lit.
  simpl in *. destruct Hc as [-> | Hc].
  - rewrite skip_space_app by done. simpl. by rewrite Hlex.
  - rewrite skip_space_app; [|done|].
    2:{ apply value_start_not_space. unfold value_start. rewrite Hc.
        by rewrite !orb_true_r. }
    rewrite (digit_not c "["), (digit_not c "{"), (digit_not c quote),
      (digit_not c "n"), (digit_not c "t"), (digit_not c "f") by done.
    by rewrite Hlex.
Qed.

Lemma depth_room depth d :
  (depth + N.succ d <= maxNestingDepth)%N ->
  (maxNestingDepth <=? depth)%N = false /\ (N.succ depth + d <= maxNestingDepth)%N.
Proof. intros H. split; [apply N.leb_gt|]; lia. Qed.

(** The decoder reads every text of the grammar, within the depth the
    scanner allows, and leaves what follows it. *)
Lemma decoder_complete :
  (forall d v t, text d v t ->
     forall f depth ws rest,
       spaces ws -> (forall lit, v = INumber lit -> delimited rest) ->
       (depth + d <= maxNestingDepth)%N -> 2 * length t + 1 <= f ->
       value f depth (ws ++ t ++ rest) = Some (v, rest))
  /\ (forall d vs body, text_elements d vs body ->
     forall f depth rest,
       (depth + d <= maxNestingDepth)%N -> 2 * length body + 2 <= f ->
       elements f depth (body ++ "]" :: rest) = Some (vs, rest))
  /\ (forall d ms body, text_members d ms body ->
     forall f depth rest,
       (depth + d <= maxNestingDepth)%N -> 2 * length body + 2 <= f ->
       members f depth (body ++ "}" :: rest) = Some (ms, rest)).
Proof.
  apply text_mutind.
  - (* null *)
    intros d [|f] depth ws rest Hws _ _ Hf; [simpl in Hf; lia|].
    simpl. by rewrite skip_space_app.
  - intros d [|f] depth ws rest Hws _ _ Hf; [simpl in Hf; lia|].
    simpl. by rewrite skip_space_app.
  - intros d [|f] depth ws rest Hws _ _ Hf; [simpl in Hf; lia|].
    simpl. by rewrite skip_space_app.
  - (* number *)
    intros d lit Hlit [|f] depth ws rest Hws Hr _ Hf; [lia|].
    apply value_number; eauto.
  - (* string *)
    intros d b Hb [|f] depth ws rest Hws _ _ Hf; [lia|].
    simpl. rewrite skip_space_app by done. simpl.
    norm_app. by rewrite string_body_app.
  - (* empty slice *)
    intros d ws0 Hws0 [|f] depth ws rest Hws _ Hd Hf; [lia|].
    destruct (depth_room _ _ Hd) as [Hlt _].
    simpl. rewrite skip_space_app by done. simpl. rewrite Hlt.
    norm_app. by rewrite skip_space_app.
  - (* slice *)
    intros d vs body Hbody IH [|f] depth ws rest Hws _ Hd Hf; [lia|].
    destruct (depth_room _ _ Hd) as [Hlt Hd'].
    simpl. rewrite skip_space_app by done. simpl. rewrite Hlt.
    norm_app.
    destruct (elements_head _ _ _ Hbody) as (ws1 & c & r & Hws1 & Hb & Hc).
    rewrite IH; [|done|norm_len Hf; lia].
    rewrite Hb at 1. norm_app.
    rewrite skip_space_app by auto using value_start_not_space.
    simpl. by rewrite (value_start_not c "]").
  - (* empty map *)
    intros d ws0 Hws0 [|f] depth ws rest Hws _ Hd Hf; [lia|].
    destruct (depth_room _ _ Hd) as [Hlt _].
    simpl. rewrite skip_space_app by done. simpl. rewrite Hlt.
    norm_app. by rewrite skip_space_app.
  - (* map *)
    intros d ms body Hbody IH [|f] depth ws rest Hws _ Hd Hf; [lia|].
    destruct (depth_room _ _ Hd) as [Hlt Hd'].
    simpl. rewrite skip_space_app by done. simpl. rewrite Hlt.
    norm_app.
    destruct (members_head _ _ _ Hbody) as (ws1 & r & Hws1 & Hb).
    rewrite IH; [|done|norm_len Hf; lia].
    rewrite Hb at 1. norm_app.
    by rewrite skip_space_app.
  - (* last element *)
    intros d v ws1 t ws2 Hws1 Ht IH Hws2 [|f] depth rest Hd Hf; [lia|].
    simpl. norm_app.
    rewrite IH; [|done| |done|norm_len Hf; lia].
    2:{ intros _ _. by apply delimited_spaces. }
    by rewrite skip_space_app.
  - (* more elements *)
    intros d v vs ws1 t ws2 body Hws1 Ht IHt Hws2 Hbody IH [|f] depth rest Hd Hf;
      [lia|].
    simpl. norm_app.
    rewrite IHt; [|done| |done|norm_len Hf; lia].
    2:{ intros _ _. by apply delimited_spaces. }
    simpl. rewrite skip_space_app by done. simpl.
    destruct (text_head _ _ _ Ht) as (c & r & -> & _).
    rewrite IH; [done|done|]. norm_len Hf. lia.
  - (* last member *)
    intros d k v ws1 ws2 ws3 t ws4 Hws1 Hk Hws2 Hws3 Ht IH Hws4
      [|f] depth rest Hd Hf; [lia|].
    simpl. norm_app.
    rewrite skip_space_app by done. simpl.
    norm_app.
    rewrite string_body_app by done.
    rewrite skip_space_app by done. simpl.
    norm_app.
    rewrite IH; [|done| |done|].
    2:{ intros _ _. by apply delimited_spaces. }
    2:{ norm_len Hf. lia. }
    by rewrite skip_space_app.
  - (* more members *)
    intros d k v ms ws1 ws2 ws3 t ws4 body Hws1 Hk Hws2 Hws3 Ht IHt Hws4
      Hbody IH [|f] depth rest Hd Hf; [lia|].
    assert (2 * length t + 1 <= f /\ 2 * length body + 2 <= f) as [Hf1 Hf2].
    { destruct (text_head _ _ _ Ht) as (c & r & -> & _).
      norm_len Hf. cbn [length]. lia. }
    simpl. norm_app.
    rewrite skip_space_app by done. simpl.
    norm_app.
    rewrite string_body_app by done.
    rewrite skip_space_app by done. simpl.
    norm_app.
    rewrite IHt; [|done| |done|done].
    2:{ intros _ _. by apply delimited_spaces. }
    simpl. rewrite skip_space_app by done. simpl.
    by rewrite IH.
Qed.

(** ** The decoder accepts nothing else *)















#[local] Arguments expect : simpl never.
#[local] Arguments starts_with : simpl never.


(** ** [readValue] and [ConvertBytesToJsonNumberArray] *)

Lemma readValue_text d v t ws rest :
  spaces ws -> text d v t -> (d <= maxNestingDepth)%N ->
  (forall lit, v = INumber lit -> delimited rest) ->
  readValue (ws ++ t ++ rest) = Some (v, rest).
Proof.
  intros Hws Ht Hd Hr. unfold readValue.
  apply (proj1 decoder_complete d v t Ht); [done|done|lia|].
  unfold fuel_for. rewrite !length_app. lia.
Qed.



Lemma Convert_null s :
  begins_with_null s -> ConvertBytesToJsonNumberArray s = (None, None).
Proof.
  intros (ws & rest & Hws & ->).
  unfold ConvertBytesToJsonNumberArray, Decode.
  rewrite (readValue_text 0 INil); [done|done|constructor|done|done].
Qed.


(** The result of [ConvertBytesToJsonNumberArray] is never a slice
    together with an error. *)
Lemma Convert_error s r e :
  ConvertBytesToJsonNumberArray s = (r, Some e) -> r = None.
Proof.
  unfold ConvertBytesToJsonNumberArray.
  destruct (Decode s) as [r' [e'|]]; congruence.
Qed.






End decoder_facts.
Example decode_book_update :
  ConvertBytesToJsonNumberArray (B "[17,[7254.7,3,3.3]]")
  = (Some [INumber (B "17");
           ISlice [INumber (B "7254.7"); INumber (B "3"); INumber (B "3.3")]],
     None).
Proof. vm_compute. reflexivity. Qed.

Example decode_large_count :
  ConvertBytesToJsonNumberArray (B "[ 1 , 9007199254740993 ]")
  = (Some [INumber (B "1"); INumber (B "9007199254740993")], None).
Proof. vm_compute. reflexivity. Qed.

Example decode_null :
  ConvertBytesToJsonNumberArray (B "null") = (None, None).
Proof. vm_compute. reflexivity. Qed.

Example decode_truncated :
  ConvertBytesToJsonNumberArray (B "[1,2") = (None, Some SyntaxError).
Proof. vm_compute. reflexivity. Qed.


(** * Facts about [strings.Split] *)

Module strings_facts.
Import strings.

Lemma Split_nonempty s sep : Split s sep <> [].
Proof.
  destruct s as [|c s]; simpl; [done|].
  destruct (c =? sep); [done|]. by destruct (Split s sep).
Qed.

Lemma Split_cons_ne c s sep :
  (c =? sep) = false ->
  exists seg segs, Split s sep = seg :: segs
                   /\ Split (String c s) sep = String c seg :: segs.
Proof.
  intros Hc. simpl. rewrite Hc.
  destruct (Split s sep) as [|seg segs] eqn:Hs; [by apply Split_nonempty in Hs|].
  eauto.
Qed.

Lemma Join_cons_char c seg segs sep :
  Join (String c seg :: segs) sep = String c (Join (seg :: segs) sep).
Proof. by destruct segs. Qed.

Lemma Join_cons_empty seg segs sep :
  Join (EmptyString :: seg :: segs) sep = String sep (Join (seg :: segs) sep).
Proof. done. Qed.

(** Joining the segments with the separator gives the string back. *)
Lemma Join_Split s sep : Join (Split s sep) sep = s.
Proof.
  induction s as [|c s IH]; [done|].
  destruct (c =? sep) eqn:Hc.
  - simpl Split. rewrite Hc. apply Ascii.eqb_eq in Hc as ->.
    destruct (Split s sep) as [|seg segs] eqn:Hs; [by apply Split_nonempty in Hs|].
    by rewrite Join_cons_empty, IH.
  - destruct (Split_cons_ne c s sep Hc) as (seg & segs & Hs & ->).
    rewrite Hs in IH. by rewrite Join_cons_char, IH.
Qed.

(** There is one segment more than there are separators. *)
Lemma Split_length s sep : length (Split s sep) = S (Count s sep).
Proof.
  induction s as [|c s IH]; [done|].
  destruct (c =? sep) eqn:Hc.
  - simpl. rewrite Hc. simpl. by rewrite IH.
  - destruct (Split_cons_ne c s sep Hc) as (seg & segs & Hs & ->).
    simpl. rewrite Hc. rewrite Hs in IH. simpl in *. done.
Qed.

(** No segment holds a separator. *)
Lemma Split_segments s sep : Forall (λ seg, Count seg sep = 0) (Split s sep).
Proof.
  induction s as [|c s IH]; [by repeat constructor|].
  destruct (c =? sep) eqn:Hc.
  - simpl. rewrite Hc. by constructor.
  - destruct (Split_cons_ne c s sep Hc) as (seg & segs & Hs & ->).
    rewrite Hs in IH. inversion IH as [|? ? Hseg Hsegs]; subst.
    constructor; [|done]. simpl. by rewrite Hc.
Qed.

Lemma Split_no_sep s sep : Count s sep = 0 -> Split s sep = [s].
Proof.
  induction s as [|c s IH]; [done|]. simpl.
  destruct (c =? sep); [done|]. simpl. intros Hs. by rewrite IH.
Qed.

Lemma Split_append s t sep :
  Count s sep = 0 ->
  Split (String.append s (String sep t)) sep = s :: Split t sep.
Proof.
  induction s as [|c s IH]; simpl.
  - by rewrite Ascii.eqb_refl.
  - destruct (c =? sep); [done|]. simpl. intros Hs. by rewrite IH.
Qed.

(** A key has three segments exactly when it is three separator-free
    strings joined by two separators. *)
Lemma Split_three key sep a b c :
  Split key sep = [a; b; c]
  <-> key = String.append a (String sep (String.append b (String sep c)))
      /\ Count a sep = 0 /\ Count b sep = 0 /\ Count c sep = 0.
Proof.
  split.
  - intros Hs. pose proof (Join_Split key sep) as Hj.
    pose proof (Split_segments key sep) as Hseg. rewrite Hs in Hj, Hseg.
    inversion Hseg as [|? ? Ha Hseg']; subst.
    inversion Hseg' as [|? ? Hb Hseg'']; subst.
    inversion Hseg'' as [|? ? Hc _]; subst. done.
  - intros (-> & Ha & Hb & Hc).
    by rewrite !Split_append, Split_no_sep.
Qed.

Lemma HasPrefix_refl s : HasPrefix s s = true.
Proof. induction s as [|c s IH]; [done|]. simpl. by rewrite Ascii.eqb_refl. Qed.

Lemma Contains_refl s : Contains s s = true.
Proof. destruct s; simpl; [done|]. by rewrite Ascii.eqb_refl, HasPrefix_refl. Qed.

Lemma Contains_append p s : Contains (String.append p s) s = true.
Proof.
  induction p as [|c p IH]; simpl; [apply Contains_refl|].
  rewrite IH. apply orb_true_r.
Qed.

Lemma Count_append s t sep :
  Count (String.append s t) sep = Count s sep + Count t sep.
Proof. induction s as [|c s IH]; simpl; [done|]. rewrite IH. lia. Qed.

End strings_facts.

(** * Facts about the order book *)

Lemma Forall_filter_keep {A} (P Q : A -> Prop) `{!forall x, Decision (P x)}
    (l : list A) :
  Forall Q l -> Forall Q (filter P l).
Proof.
  rewrite !Forall_forall. intros HQ x [_ Hx]%list_elem_of_filter. auto.
Qed.

Section orderbook_facts.
Context {F64 : Float64}.

Implicit Types (u l : BookUpdate) (levels : list BookUpdate) (side : OrderSide).

Lemma before_irrefl side p : ¬ before side p p.
Proof. destruct side; simpl; apply irreflexivity, _. Qed.

Lemma before_trans side p q r :
  before side p q -> before side q r -> before side p r.
Proof. destruct side; simpl; intros; by etrans. Qed.

Lemma before_total side p q : before side p q \/ p = q \/ before side q p.
Proof.
  destruct side; simpl; destruct (trichotomy f64_lt p q) as [?|[?|?]]; auto.
Qed.

Lemma elem_of_remove_level p levels l :
  l ∈ remove_level p levels <-> l ∈ levels /\ Price l ≠ p.
Proof. unfold remove_level. rewrite list_elem_of_filter. tauto. Qed.

Lemma remove_level_absent p levels :
  Forall (λ l, Price l ≠ p) levels -> remove_level p levels = levels.
Proof.
  unfold remove_level. induction 1 as [|l levels Hl _ IH]; [done|].
  rewrite filter_cons_True by done. by rewrite IH.
Qed.

Lemma remove_level_clean p levels :
  Forall (λ l, Price l ≠ p) (remove_level p levels).
Proof. apply Forall_forall. intros l. rewrite elem_of_remove_level. tauto. Qed.

Lemma remove_level_idemp p levels :
  remove_level p (remove_level p levels) = remove_level p levels.
Proof. apply remove_level_absent, remove_level_clean. Qed.

Lemma remove_level_sorted side p levels :
  sorted_levels side levels -> sorted_levels side (remove_level p levels).
Proof.
  unfold sorted_levels, remove_level.
  induction 1 as [|l levels _ IH Hl]; [constructor|].
  destruct (decide (Price l ≠ p)).
  - rewrite filter_cons_True by done. constructor; [done|].
    by apply Forall_filter_keep.
  - by rewrite filter_cons_False.
Qed.

Lemma elem_of_insert_level u levels l :
  l ∈ insert_level u levels <-> l = u \/ l ∈ levels.
Proof.
  induction levels as [|x levels IH]; simpl.
  - rewrite list_elem_of_singleton, elem_of_nil. tauto.
  - case_decide; rewrite !elem_of_cons; [tauto|]. rewrite IH. tauto.
Qed.

(** The update goes between two parts of the list, which keep their
    order. *)
Lemma insert_level_split u levels :
  exists pre post,
    levels = pre ++ post /\ insert_level u levels = pre ++ u :: post.
Proof.
  induction levels as [|x levels (pre & post & Hl & Hi)]; simpl.
  - by exists [], [].
  - case_decide.
    + by exists [], (x :: levels).
    + exists (x :: pre), post. simpl. by rewrite <- Hl, Hi.
Qed.

Lemma insert_level_sorted u levels :
  sorted_levels (Side u) levels ->
  Forall (λ l, Price l ≠ Price u) levels ->
  sorted_levels (Side u) (insert_level u levels).
Proof.
  unfold sorted_levels.
  induction 1 as [|x levels Hs IH Hx]; intros Hne; simpl.
  - repeat constructor.
  - inversion Hne as [|? ? Hxu Hne']; subst. case_decide as Hb.
    + constructor; [by constructor|]. constructor; [done|].
      eapply Forall_impl; [exact Hx|]. intros y Hy. unfold ordered in *.
      by eapply before_trans.
    + constructor; [by apply IH|].
      apply Forall_forall. intros y [->|Hy]%elem_of_insert_level.
      * unfold ordered.
        destruct (before_total (Side u) (Price x) (Price u)) as [?|[?|?]]; done.
      * by eapply Forall_forall in Hx.
Qed.

Lemma elem_of_upsert_level u levels l :
  l ∈ upsert_level u levels <-> l = u \/ (l ∈ levels /\ Price l ≠ Price u).
Proof.
  unfold upsert_level. by rewrite elem_of_insert_level, elem_of_remove_level.
Qed.

Lemma upsert_level_sorted u levels :
  sorted_levels (Side u) levels -> sorted_levels (Side u) (upsert_level u levels).
Proof.
  intros Hs. apply insert_level_sorted.
  - by apply remove_level_sorted.
  - apply remove_level_clean.
Qed.

(** In a side that is in order at most one level has a given price. *)
Lemma sorted_levels_unique side levels a b :
  sorted_levels side levels -> a ∈ levels -> b ∈ levels ->
  Price a = Price b -> a = b.
Proof.
  unfold sorted_levels.
  induction 1 as [|x levels _ IH Hx]; [by intros ?%elem_of_nil|].
  rewrite !elem_of_cons. intros [->|Ha] [->|Hb] Hp; auto.
  - eapply Forall_forall in Hx; [|done]. unfold ordered in Hx.
    rewrite Hp in Hx. by apply before_irrefl in Hx.
  - eapply Forall_forall in Hx; [|done]. unfold ordered in Hx.
    rewrite Hp in Hx. by apply before_irrefl in Hx.
Qed.

Lemma side_of_set_side ob side levels :
  side_of (set_side ob side levels) side = levels.
Proof. by destruct side. Qed.

Lemma side_of_set_side_ne ob side side' levels :
  side ≠ side' -> side_of (set_side ob side levels) side' = side_of ob side'.
Proof. by destruct side, side'. Qed.

Lemma symbol_set_side ob side levels : symbol (set_side ob side levels) = symbol ob.
Proof. by destruct side. Qed.

Lemma set_side_id ob side : set_side ob side (side_of ob side) = ob.
Proof. by destruct ob, side. Qed.

Lemma set_side_set_side ob side levels levels' :
  set_side (set_side ob side levels) side levels' = set_side ob side levels'.
Proof. by destruct side. Qed.

(** [UpdateWith] keeps the invariant of the book. *)
Lemma UpdateWith_consistent ob u ob' :
  consistent ob -> UpdateWith ob (Some u) = Returned ob' -> consistent ob'.
Proof.
  assert (forall side levels, side_ok side levels -> side = Side u ->
            (0 < Count u)%Z -> side_ok side (upsert_level u levels)) as Hup.
  { intros side levels [Hs Hf] ->. split; [by apply upsert_level_sorted|].
    apply Forall_forall. intros l [->|[Hl _]]%elem_of_upsert_level; [done|].
    by eapply Forall_forall in Hf. }
  assert (forall side levels p, side_ok side levels ->
            side_ok side (remove_level p levels)) as Hrm.
  { intros side levels p [Hs Hf]. split; [by apply remove_level_sorted|].
    by apply Forall_filter_keep. }
  unfold UpdateWith, consistent. intros [Hb Ha].
  destruct (0 <? Count u)%Z eqn:Hpos.
  - apply Z.ltb_lt in Hpos. intros [= <-].
    destruct (Side u) eqn:Hside; simpl; split; auto.
  - destruct (Count u =? 0)%Z; intros [= <-]; [|done].
    destruct (Side u); simpl; split; auto.
Qed.

End orderbook_facts.

(** * Facts about the factories *)

Section factory_facts.
Context {F64 : Float64} {Pkg : Packages}.

Implicit Types (f : BookFactory) (sub : subscription) (w : world).

Lemma index1_lookup (vs : list iface) (x : iface) :
  index1 (Some vs) = Returned x <-> vs !! 1%nat = Some x.
Proof.
  destruct vs as [|v0 [|v1 vs]]; simpl; split; intros Hx; by inversion Hx.
Qed.

Lemma index1_short (vs : list iface) :
  length vs < 2 -> index1 (Some vs) = Panicked.
Proof. destruct vs as [|v0 [|v1 vs]]; simpl; [done|done|lia]. Qed.

(** The steps of [BookFactory.Build], one by one. *)

Lemma Build_decode_error f sub objType raw raw_bytes w r e :
  ConvertBytesToJsonNumberArray raw_bytes = (r, Some e) ->
  BookFactory_Build f sub objType raw raw_bytes w = (Returned (MNil, Some e), w).
Proof. intros Hc. unfold BookFactory_Build. by rewrite Hc. Qed.

Lemma Build_index_panic f sub objType raw raw_bytes w r :
  ConvertBytesToJsonNumberArray raw_bytes = (r, None) ->
  index1 r = Panicked ->
  BookFactory_Build f sub objType raw raw_bytes w = (Panicked, w).
Proof.
  intros Hc Hi. unfold BookFactory_Build. rewrite Hc.
  unfold bind, call. by rewrite Hi.
Qed.

Lemma Build_constructed f sub objType raw raw_bytes w r count :
  ConvertBytesToJsonNumberArray raw_bytes = (r, None) ->
  index1 r = Returned count ->
  BookFactory_Build f sub objType raw raw_bytes w
  = match NewBookUpdateFromRaw (Symbol (Request sub)) (Precision (Request sub))
            raw count with
    | Panicked => (Panicked, w)
    | Returned (update, err) =>
        if manageBooks f then
          match orderbooks w !! Symbol (Request sub) with
          | Some l =>
              match Orderbook_UpdateWith l update w with
              | (Returned _, w') => (Returned (MBookUpdate update, err), w')
              | (Panicked, w') => (Panicked, w')
              end
          | None => (Returned (MBookUpdate update, err), w)
          end
        else (Returned (MBookUpdate update, err), w)
    end.
Proof.
  intros Hc Hi. unfold BookFactory_Build. rewrite Hc.
  unfold bind, call, ret, lookup_orderbook. rewrite Hi.
  destruct (NewBookUpdateFromRaw _ _ _ _) as [[update err]|]; [|done].
  destruct (manageBooks f); [|done].
  by destruct (orderbooks w !! _).
Qed.

(** [Orderbook.UpdateWith] through a pointer only writes the object the
    pointer is to, and nothing when it panics. *)
Lemma Orderbook_UpdateWith_inv l update w o w' :
  Orderbook_UpdateWith l update w = (o, w') ->
  (o = Panicked /\ w' = w)
  \/ (exists ob ob', heap w !! l = Some ob /\ UpdateWith ob update = Returned ob'
        /\ o = Returned ()
        /\ w' = {| heap := <[l := ob']> (heap w); orderbooks := orderbooks w |}).
Proof.
  unfold Orderbook_UpdateWith.
  destruct (heap w !! l) as [ob|]; [|intros [= <- <-]; by left].
  destruct (UpdateWith ob update) as [ob'|] eqn:Hu; intros [= <- <-];
    [right; by exists ob, ob'|by left].
Qed.


End factory_facts.

(** * The fuel of the decoder is never short *)

Module decoder_fuel.
Import grammar decoder_facts.

#[local] Arguments lex_number : simpl never.
#[local] Arguments string_body : simpl never.
#[local] Arguments skip_space : simpl never.
#[local] Arguments expect : simpl never.
#[local] Arguments starts_with : simpl never.










End decoder_fuel.

(** * The two shapes of a call of the book factory *)

Section book_cases.
Context {F64 : Float64} {Pkg : Packages}.

Implicit Types (f : BookFactory) (sub : subscription) (w : world).

(** [Build] either is over before it comes to the store, with one outcome
    for every world, or constructs an update and applies it. *)
Lemma Build_cases f sub objType raw raw_bytes :
  stateless (BookFactory_Build f sub objType raw raw_bytes)
  \/ (manageBooks f = true
      /\ exists vs count update err,
          ConvertBytesToJsonNumberArray raw_bytes = (Some vs, None)
          /\ vs !! 1%nat = Some count
          /\ NewBookUpdateFromRaw (Symbol (Request sub)) (Precision (Request sub))
               raw count = Returned (update, err)
          /\ forall w,
              BookFactory_Build f sub objType raw raw_bytes w
              = apply_update (Symbol (Request sub)) update err w).
Proof.
  destruct (ConvertBytesToJsonNumberArray raw_bytes) as [r [e|]] eqn:Hc.
  { left. eexists. intros w. by apply (Build_decode_error _ _ _ _ _ _ r e). }
  destruct (index1 r) as [count|] eqn:Hi.
  2:{ left. eexists. intros w. by apply (Build_index_panic _ _ _ _ _ _ r). }
  destruct (NewBookUpdateFromRaw (Symbol (Request sub)) (Precision (Request sub))
              raw count) as [[update err]|] eqn:Hu.
  2:{ left. eexists. intros w.
      rewrite (Build_constructed _ _ _ _ _ _ r count) by done. by rewrite Hu. }
  destruct (manageBooks f) eqn:Hf.
  2:{ left. eexists. intros w.
      rewrite (Build_constructed _ _ _ _ _ _ r count) by done.
      by rewrite Hu, Hf. }
  right. split; [done|]. destruct r as [vs|]; [|done].
  exists vs, count, update, err. repeat split; [by apply index1_lookup|done|].
  intros w. rewrite (Build_constructed _ _ _ _ _ _ (Some vs) count) by done.
  by rewrite Hu, Hf.
Qed.

(** [BuildSnapshot] either is over before it comes to the store (and has
    not succeeded, if the books are managed), or constructs a snapshot
    without an error and installs a new book. *)
Lemma BuildSnapshot_cases f sub rows raw_bytes :
  (exists o,
     (forall w, BookFactory_BuildSnapshot f sub rows raw_bytes w = (o, w))
     /\ (manageBooks f = true -> forall m, o ≠ Returned (m, None)))
  \/ (manageBooks f = true
      /\ exists converted vs count update,
          ToFloat64Array rows = Returned (converted, None)
          /\ ConvertBytesToJsonNumberArray raw_bytes = (Some vs, None)
          /\ vs !! 1%nat = Some count
          /\ NewBookUpdateSnapshotFromRaw (Symbol (Request sub))
               (Precision (Request sub)) converted count
             = Returned (update, None)
          /\ forall w,
              BookFactory_BuildSnapshot f sub rows raw_bytes w
              = apply_snapshot (Symbol (Request sub)) update w).
Proof.
  unfold BookFactory_BuildSnapshot, bind, call, ret.
  destruct (ToFloat64Array rows) as [[converted [e1|]]|];
    [left; eexists; split; [done|congruence]|
    |left; eexists; split; [done|congruence]].
  destruct (ConvertBytesToJsonNumberArray raw_bytes) as [r [e2|]];
    [left; eexists; split; [done|congruence]|].
  destruct (index1 r) as [count|] eqn:Hi;
    [|left; eexists; split; [done|congruence]].
  destruct (NewBookUpdateSnapshotFromRaw _ _ _ _) as [[update [e3|]]|] eqn:Hu;
    [left; eexists; split; [done|congruence]|
    |left; eexists; split; [done|congruence]].
  destruct (manageBooks f); [|left; eexists; split; [done|congruence]].
  right. split; [done|]. destruct r as [vs|]; [|done].
  exists converted, vs, count, update.
  repeat split; [by apply index1_lookup|done|].
  intros w. unfold install_orderbook, lookup_orderbook, apply_snapshot. simpl.
  rewrite lookup_insert_eq. unfold Orderbook_SetWithSnapshot. simpl.
  rewrite lookup_insert_eq. unfold installed, empty_book.
  destruct (SetWithSnapshot _ update) as [ob'|]; [|done].
  by rewrite insert_insert_eq.
Qed.

Lemma BuildSnapshot_cases_stateless f sub rows raw_bytes o :
  (forall w, BookFactory_BuildSnapshot f sub rows raw_bytes w = (o, w)) ->
  stateless (BookFactory_BuildSnapshot f sub rows raw_bytes).
Proof. intros Ho. by exists o. Qed.

Lemma fresh_loc w : heap w !! fresh (dom (heap w)) = None.
Proof. apply not_elem_of_dom, is_fresh. Qed.

Lemma installed_old_books w sym ob l :
  is_Some (heap w !! l) -> heap (installed w sym ob) !! l = heap w !! l.
Proof.
  intros [ob0 Hl]. simpl. apply lookup_insert_ne. intros Heq.
  rewrite <- Heq, fresh_loc in Hl. done.
Qed.

Lemma installed_symbol w sym ob :
  orderbooks (installed w sym ob) !! sym = Some (fresh (dom (heap w)))
  /\ heap (installed w sym ob) !! fresh (dom (heap w)) = Some ob.
Proof. simpl. by rewrite !lookup_insert_eq. Qed.

(** What [apply_update] leaves of a world. *)
Lemma apply_update_frame sym update err w :
  let w' := snd (apply_update sym update err w) in
  orderbooks w' = orderbooks w
  /\ dom (heap w') = dom (heap w)
  /\ (forall l, orderbooks w !! sym ≠ Some l -> heap w' !! l = heap w !! l).
Proof.
  unfold apply_update. destruct (orderbooks w !! sym) as [l|] eqn:Hl; [|done].
  destruct (Orderbook_UpdateWith l update w) as [o w1] eqn:Hw.
  apply Orderbook_UpdateWith_inv in Hw
    as [[-> ->]|(ob & ob' & Hob & _ & -> & ->)]; [done|].
  simpl. split; [done|]. split.
  - apply dom_insert_lookup_L. by eexists.
  - intros l' Hne. apply lookup_insert_ne. congruence.
Qed.

(** [apply_update] either leaves the world or replaces the book of the
    symbol. *)
Lemma apply_update_world sym update err w :
  (exists o, apply_update sym update err w = (o, w))
  \/ (exists l ob ob',
        orderbooks w !! sym = Some l /\ heap w !! l = Some ob
        /\ UpdateWith ob update = Returned ob'
        /\ apply_update sym update err w
           = (Returned (MBookUpdate update, err), with_book w l ob')).
Proof.
  unfold apply_update, Orderbook_UpdateWith.
  destruct (orderbooks w !! sym) as [l|] eqn:Hl; [|eauto].
  destruct (heap w !! l) as [ob|] eqn:Hob; [|eauto].
  destruct (UpdateWith ob update) as [ob'|] eqn:Hu; [|eauto].
  right. by exists l, ob, ob'.
Qed.

(** A change of another book goes through [apply_update]. *)
Lemma apply_update_with_book sym update err w l' ob' :
  orderbooks w !! sym ≠ Some l' ->
  apply_update sym update err (with_book w l' ob')
  = (fst (apply_update sym update err w),
     with_book (snd (apply_update sym update err w)) l' ob').
Proof.
  intros Hne. unfold apply_update, Orderbook_UpdateWith. simpl.
  destruct (orderbooks w !! sym) as [l|] eqn:Hl; [|done].
  assert (l' ≠ l) as Hll by congruence.
  rewrite lookup_insert_ne by done.
  destruct (heap w !! l) as [ob|]; [|done].
  destruct (UpdateWith ob update) as [ob1|]; [|done].
  simpl. unfold with_book. simpl. do 2 f_equal. by apply insert_insert_ne.
Qed.

Lemma Build_frame_lemma f sub objType raw raw_bytes w :
  let w' := snd (BookFactory_Build f sub objType raw raw_bytes w) in
  orderbooks w' = orderbooks w
  /\ dom (heap w') = dom (heap w)
  /\ (forall l,
       orderbooks w !! Symbol (Request sub) ≠ Some l ->
       heap w' !! l = heap w !! l).
Proof.
  destruct (Build_cases f sub objType raw raw_bytes)
    as [[o Ho]|(_ & vs & count & update & err & _ & _ & _ & Hb)].
  - by rewrite Ho.
  - rewrite Hb. apply apply_update_frame.
Qed.

End book_cases.

(** * The book factory *)

Section book_factory_theorems.
Context {F64 : Float64} {Pkg : Packages}.

Implicit Types (f : BookFactory) (sub : subscription) (w : world).


(** C7.  When the store has no book for the symbol, [BookFactory.Build]
    leaves the store as it is whatever else happens, and a call whose
    decoding succeeds (the bytes decode to a sequence that has a position
    1, and the constructor returns) hands the constructed update and the
    constructor's error to the caller.  Managing the books or not makes no
    difference to the call then; and for any store, a call that returns
    while the books are managed returns the same without. *)
Theorem Build_absent_symbol sub objType raw raw_bytes w :
  (orderbooks w !! Symbol (Request sub) = None ->
   (forall f, snd (BookFactory_Build f sub objType raw raw_bytes w) = w)
   /\ (forall f vs count update err,
        ConvertBytesToJsonNumberArray raw_bytes = (Some vs, None) ->
        vs !! 1%nat = Some count ->
        NewBookUpdateFromRaw (Symbol (Request sub)) (Precision (Request sub))
          raw count = Returned (update, err) ->
        BookFactory_Build f sub objType raw raw_bytes w
        = (Returned (MBookUpdate update, err), w))
   /\ (forall f f',
        BookFactory_Build f sub objType raw raw_bytes w
        = BookFactory_Build f' sub objType raw raw_bytes w))
  /\ (forall f f' r w',
       manageBooks f = true -> manageBooks f' = false ->
       BookFactory_Build f sub objType raw raw_bytes w = (Returned r, w') ->
       BookFactory_Build f' sub objType raw raw_bytes w = (Returned r, w)).
Proof.
  assert (forall f,
    orderbooks w !! Symbol (Request sub) = None \/ manageBooks f = false ->
    BookFactory_Build f sub objType raw raw_bytes w
    = match ConvertBytesToJsonNumberArray raw_bytes with
      | (_, Some e) => (Returned (MNil, Some e), w)
      | (r, None) =>
          match index1 r with
          | Panicked => (Panicked, w)
          | Returned count =>
              match NewBookUpdateFromRaw (Symbol (Request sub))
                      (Precision (Request sub)) raw count with
              | Panicked => (Panicked, w)
              | Returned (update, err) => (Returned (MBookUpdate update, err), w)
              end
          end
      end) as Hplain.
  { intros f Hf.
    destruct (ConvertBytesToJsonNumberArray raw_bytes) as [r [e|]] eqn:Hc.
    { by rewrite (Build_decode_error _ _ _ _ _ _ r e). }
    destruct (index1 r) as [count|] eqn:Hi.
    2:{ by rewrite (Build_index_panic _ _ _ _ _ _ r). }
    rewrite (Build_constructed _ _ _ _ _ _ r count) by done.
    destruct (NewBookUpdateFromRaw _ _ _ _) as [[update err]|]; [|done].
    destruct Hf as [-> | ->]; [|done]. by destruct (manageBooks f). }
  split.
  - intros Habsent. split; [|split].
    + intros f. rewrite Hplain by auto.
      destruct (ConvertBytesToJsonNumberArray raw_bytes) as [r [e|]]; [done|].
      destruct (index1 r); [|done].
      by destruct (NewBookUpdateFromRaw _ _ _ _) as [[update err]|].
    + intros f vs count update err Hc Hi Hu. rewrite Hplain by auto.
      apply index1_lookup in Hi. by rewrite Hc, Hi, Hu.
    + intros f f'. by rewrite !Hplain by auto.
  - intros f f' r w' Hf Hf' Hb. rewrite Hplain by auto.
    destruct (ConvertBytesToJsonNumberArray raw_bytes) as [r0 [e|]] eqn:Hc.
    { rewrite (Build_decode_error _ _ _ _ _ _ r0 e) in Hb by done. congruence. }
    destruct (index1 r0) as [count|] eqn:Hi.
    2:{ rewrite (Build_index_panic _ _ _ _ _ _ r0) in Hb by done. congruence. }
    rewrite (Build_constructed _ _ _ _ _ _ r0 count) in Hb by done.
    destruct (NewBookUpdateFromRaw _ _ _ _) as [[update err]|]; [|done].
    rewrite Hf in Hb. destruct (orderbooks w !! _) as [l|]; [|congruence].
    destruct (Orderbook_UpdateWith l update w) as [[[]|] w1]; congruence.
Qed.

(** C9.  When the bytes decode to a sequence of fewer than two elements,
    [raw_json_number[1]] is out of range: [BookFactory.Build] panics, and
    so does [BookFactory.BuildSnapshot] once the rows have been converted,
    neither returning an error nor touching the store.  Such bytes
    exist. *)
Theorem Build_index_out_of_range :
  (forall f sub objType raw rows raw_bytes w vs,
     ConvertBytesToJsonNumberArray raw_bytes = (Some vs, None) ->
     length vs < 2 ->
     BookFactory_Build f sub objType raw raw_bytes w = (Panicked, w)
     /\ (forall converted,
          ToFloat64Array rows = Returned (converted, None) ->
          BookFactory_BuildSnapshot f sub rows raw_bytes w = (Panicked, w)))
  /\ (exists raw_bytes vs,
       ConvertBytesToJsonNumberArray raw_bytes = (Some vs, None) /\ length vs < 2).
Proof.
  split.
  - intros f sub objType raw rows raw_bytes w vs Hc Hlen.
    apply index1_short in Hlen. split.
    + by apply (Build_index_panic _ _ _ _ _ _ (Some vs)).
    + intros converted Hconv.
      unfold BookFactory_BuildSnapshot, bind, call. by rewrite Hconv, Hc, Hlen.
  - exists (B "[17]"), [INumber (B "17")]. split; [by vm_compute|simpl; lia].
Qed.

Lemma Build_present f sub objType raw raw_bytes w vs count u err l ob ob' :
  manageBooks f = true ->
  ConvertBytesToJsonNumberArray raw_bytes = (Some vs, None) ->
  vs !! 1%nat = Some count ->
  NewBookUpdateFromRaw (Symbol (Request sub)) (Precision (Request sub)) raw count
  = Returned (Some u, err) ->
  orderbooks w !! Symbol (Request sub) = Some l ->
  heap w !! l = Some ob ->
  UpdateWith ob (Some u) = Returned ob' ->
  BookFactory_Build f sub objType raw raw_bytes w
  = (Returned (MBookUpdate (Some u), err), with_book w l ob').
Proof.
  intros Hf Hc Hi%index1_lookup Hu Hl Hob Hup.
  rewrite (Build_constructed _ _ _ _ _ _ (Some vs) count) by done.
  rewrite Hu, Hf, Hl. unfold Orderbook_UpdateWith. by rewrite Hob, Hup.
Qed.

(** C2.  [BookFactory.Build] with the books managed, on a symbol that has
    a book, returns the update and applies it to the side of the book the
    update belongs to; the symbol of the book and its other side stay.
    - With a count above zero the level is upserted: the side then holds
      the update and the levels it held at other prices, in their order,
      the update standing among them, and a side that was in order is in
      order again (at most one level per price, the update in its sorted
      position).
    - With a count of zero the levels at the price of the update are
      removed and the others stay in their order; without a level at that
      price the store does not change; and a second application of the
      same update changes nothing more. *)
Theorem Build_updates_book f sub objType raw raw_bytes w vs count u err l ob :
  manageBooks f = true ->
  ConvertBytesToJsonNumberArray raw_bytes = (Some vs, None) ->
  vs !! 1%nat = Some count ->
  NewBookUpdateFromRaw (Symbol (Request sub)) (Precision (Request sub)) raw count
  = Returned (Some u, err) ->
  orderbooks w !! Symbol (Request sub) = Some l ->
  heap w !! l = Some ob ->
  exists ob',
    let levels := side_of ob (Side u) in
    let levels' := side_of ob' (Side u) in
    let w' := with_book w l ob' in
    BookFactory_Build f sub objType raw raw_bytes w
    = (Returned (MBookUpdate (Some u), err), w')
    /\ symbol ob' = symbol ob
    /\ (forall side, side ≠ Side u -> side_of ob' side = side_of ob side)
    /\ ((0 < Count u)%Z ->
        (forall x, x ∈ levels' <-> x = u \/ (x ∈ levels /\ Price x ≠ Price u))
        /\ (exists pre post,
              levels' = pre ++ u :: post
              /\ pre ++ post `sublist_of` levels
              /\ forall x, x ∈ pre ++ post <-> x ∈ levels /\ Price x ≠ Price u)
        /\ (sorted_levels (Side u) levels -> sorted_levels (Side u) levels'))
    /\ (Count u = 0%Z ->
        (forall x, x ∈ levels' <-> x ∈ levels /\ Price x ≠ Price u)
        /\ levels' `sublist_of` levels
        /\ (sorted_levels (Side u) levels -> sorted_levels (Side u) levels')
        /\ (Forall (λ x, Price x ≠ Price u) levels -> w' = w)
        /\ BookFactory_Build f sub objType raw raw_bytes w'
           = (Returned (MBookUpdate (Some u), err), w')).
Proof.
  intros Hf Hc Hi Hu Hl Hob.
  destruct (UpdateWith ob (Some u)) as [ob'|] eqn:Hup.
  2:{ unfold UpdateWith in Hup. by repeat case_match. }
  exists ob'. cbv zeta.
  split; [by eapply Build_present|].
  unfold UpdateWith in Hup.
  destruct (0 <? Count u)%Z eqn:Hpos.
  - (* upsert *)
    apply Z.ltb_lt in Hpos. injection Hup as <-.
    split; [apply symbol_set_side|].
    split; [intros side Hs; by apply side_of_set_side_ne|].
    rewrite side_of_set_side. split; [|intros ?; lia].
    intros _. split; [apply elem_of_upsert_level|].
    split; [|apply upsert_level_sorted].
    destruct (insert_level_split u (remove_level (Price u) (side_of ob (Side u))))
      as (pre & post & Hrm & Hins).
    exists pre, post. split; [done|]. rewrite <- Hrm.
    split; [apply sublist_filter|]. intros x. apply elem_of_remove_level.
  - apply Z.ltb_ge in Hpos. destruct (Count u =? 0)%Z eqn:Hzero.
    + (* removal *)
      injection Hup as <-.
      split; [apply symbol_set_side|].
      split; [intros side Hs; by apply side_of_set_side_ne|].
      rewrite side_of_set_side. split; [intros ?; lia|].
      intros _. split; [intros x; apply elem_of_remove_level|].
      split; [apply sublist_filter|].
      split; [apply remove_level_sorted|].
      split.
      * intros Habsent. rewrite remove_level_absent, set_side_id by done.
        unfold with_book. rewrite insert_id by done. by destruct w.
      * set (ob1 := set_side ob _ _).
        assert (UpdateWith ob1 (Some u) = Returned ob1) as Hup1.
        { unfold UpdateWith, ob1.
          assert ((0 <? Count u)%Z = false) as -> by by apply Z.ltb_ge.
          by rewrite Hzero, side_of_set_side, remove_level_idemp,
            set_side_set_side. }
        rewrite (Build_present f sub objType raw raw_bytes (with_book w l ob1)
                   vs count u err l ob1 ob1); try done.
        -- unfold with_book. simpl. by rewrite insert_insert_eq.
        -- simpl. apply lookup_insert_eq.
    + (* a negative count: the model leaves the book alone *)
      injection Hup as <-. apply Z.eqb_neq in Hzero.
      split; [done|]. split; [done|]. split; intros ?; lia.
Qed.

(** C3.  A call of [BookFactory.BuildSnapshot] that succeeds with the
    books managed returns the snapshot and leaves the symbol mapped to an
    [Orderbook] that did not exist before, whose bids and asks are those of
    the snapshot, in its order, and nothing else: whatever book the symbol
    had before, none of its levels is in the new book unless the snapshot
    has it.  The books that existed, and the entries of the other symbols,
    are as they were. *)
Theorem BuildSnapshot_installs_new_book f sub rows raw_bytes w m w' :
  manageBooks f = true ->
  BookFactory_BuildSnapshot f sub rows raw_bytes w = (Returned (m, None), w') ->
  exists snap l ob',
    m = MBookUpdateSnapshot (Some snap)
    /\ (l ∉ dom (heap w))
    /\ orderbooks w' = <[Symbol (Request sub) := l]> (orderbooks w)
    /\ heap w' = <[l := ob']> (heap w)
    /\ symbol ob' = Symbol (Request sub)
    /\ (forall x, x ∈ bids ob' <-> x ∈ Snapshot snap /\ Side x = Bid)
    /\ (forall x, x ∈ asks ob' <-> x ∈ Snapshot snap /\ Side x = Ask)
    /\ bids ob' `sublist_of` Snapshot snap
    /\ asks ob' `sublist_of` Snapshot snap
    /\ (forall l0, l0 ∈ dom (heap w) -> heap w' !! l0 = heap w !! l0)
    /\ (forall sym, sym ≠ Symbol (Request sub) ->
         orderbooks w' !! sym = orderbooks w !! sym).
Proof.
  intros Hf. unfold BookFactory_BuildSnapshot, bind, call, ret.
  destruct (ToFloat64Array rows) as [[converted [e1|]]|]; [congruence| |congruence].
  destruct (ConvertBytesToJsonNumberArray raw_bytes) as [r [e2|]]; [congruence|].
  destruct (index1 r) as [count|]; [|congruence].
  destruct (NewBookUpdateSnapshotFromRaw _ _ _ _) as [[update [e3|]]|];
    [congruence| |congruence].
  rewrite Hf. unfold install_orderbook, lookup_orderbook. simpl.
  rewrite lookup_insert_eq. unfold Orderbook_SetWithSnapshot. simpl.
  rewrite lookup_insert_eq.
  destruct update as [snap|]; simpl; [|congruence].
  intros [= <- <-]. set (l := fresh (dom (heap w))).
  assert (l ∉ dom (heap w)) as Hl by apply is_fresh.
  exists snap, l,
    {| symbol := Symbol (Request sub);
       bids := filter (is_side Bid) (Snapshot snap);
       asks := filter (is_side Ask) (Snapshot snap) |}.
  simpl.
  split; [done|]. split; [done|]. split; [done|].
  split; [by rewrite insert_insert_eq|]. split; [done|].
  split; [intros x; rewrite list_elem_of_filter; unfold is_side; tauto|].
  split; [intros x; rewrite list_elem_of_filter; unfold is_side; tauto|].
  split; [apply sublist_filter|]. split; [apply sublist_filter|].
  split.
  - intros l0 Hl0. rewrite insert_insert_eq. apply lookup_insert_ne. congruence.
  - intros sym Hs. by apply lookup_insert_ne.
Qed.

End book_factory_theorems.

(** * The factories without state *)

Section stateless_factory_theorems.
Context {F64 : Float64} {Pkg : Packages}.

Implicit Types (sub : subscription) (w : world).

(** C5.  [TradeFactory.Build] answers a trade update (["tu"]) with
    [(nil, nil)], whatever the subscription, the fields and the bytes, and
    without a call to the constructor of trades: the equation holds for
    every constructor, one that never returns included.  Any other type of
    message is handed to the constructor, whose result is returned. *)
Theorem TradeFactory_Build_filters_updates (f : TradeFactory) sub raw raw_bytes w :
  TradeFactory_Build f sub "tu" raw raw_bytes w = (Returned (MNil, None), w)
  /\ (forall objType,
       objType ≠ "tu"%string ->
       TradeFactory_Build f sub objType raw raw_bytes w
       = match NewTradeFromRaw (Symbol (Request sub)) raw with
         | Returned (t, err) => (Returned (MTrade t, err), w)
         | Panicked => (Panicked, w)
         end).
Proof.
  split; [done|]. intros objType Hne. unfold TradeFactory_Build.
  assert (String.eqb "tu" objType = false) as ->
    by (apply String.eqb_neq; congruence).
  unfold bind, call, ret. by destruct (NewTradeFromRaw _ _) as [[t err]|].
Qed.

(** C10.  The methods of the ticker, trade, candles and status factories
    neither read nor write the replica store: each has an outcome that does
    not depend on the world, and leaves the world, the map of the books and
    every book, as it was. *)
Theorem other_factories_leave_store
    (tf : TickerFactory) (trf : TradeFactory) (cf : CandlesFactory)
    (sf : StatsFactory) sub objType raw rows raw_bytes :
  stateless (Build tf sub objType raw raw_bytes)
  /\ stateless (BuildSnapshot tf sub rows raw_bytes)
  /\ stateless (Build trf sub objType raw raw_bytes)
  /\ stateless (BuildSnapshot trf sub rows raw_bytes)
  /\ stateless (Build cf sub objType raw raw_bytes)
  /\ stateless (BuildSnapshot cf sub rows raw_bytes)
  /\ stateless (Build sf sub objType raw raw_bytes)
  /\ stateless (BuildSnapshot sf sub rows raw_bytes).
Proof.
  unfold stateless. simpl.
  unfold TickerFactory_Build, TickerFactory_BuildSnapshot, TradeFactory_Build,
    TradeFactory_BuildSnapshot, CandlesFactory_Build,
    CandlesFactory_BuildSnapshot, StatsFactory_Build,
    StatsFactory_BuildSnapshot, bind, call, ret.
  repeat split.
  - destruct (ticker_FromRaw _ _) as [[t err]|]; eauto.
  - destruct (ticker_SnapshotFromRaw _ _) as [[t err]|]; eauto.
  - destruct (String.eqb _ _); [eauto|].
    destruct (NewTradeFromRaw _ _) as [[t err]|]; eauto.
  - destruct (ToFloat64Array _) as [[converted [e|]]|]; eauto.
    destruct (NewTradeSnapshotFromRaw _ _) as [[t err]|]; eauto.
  - destruct (extractSymbolResolutionFromKey _) as [[[sym res] [e|]]|]; eauto.
    destruct (candle_FromRaw _ _ _) as [[c err]|]; eauto.
  - destruct (extractSymbolResolutionFromKey _) as [[[sym res] [e|]]|]; eauto.
    destruct (candle_SnapshotFromRaw _ _ _) as [[c err]|]; eauto.
  - destruct (negb _); [eauto|].
    destruct (derivatives_FromWsRaw _ _) as [[d err]|]; eauto.
  - eauto.
Qed.

Lemma StatsFactory_Build_malformed (f : StatsFactory) sub objType raw raw_bytes w :
  length (strings.Split (Key (Request sub)) ":") ≠ 3 ->
  StatsFactory_Build f sub objType raw raw_bytes w
  = (Returned (MNil, Some (unable_to_parse (Key (Request sub)))), w).
Proof.
  intros Hlen. unfold StatsFactory_Build.
  by assert (negb (length (strings.Split (Key (Request sub)) ":") =? 3)%nat = true)
    as -> by by apply negb_true_iff, Nat.eqb_neq.
Qed.

Lemma StatsFactory_Build_three (f : StatsFactory) sub objType raw raw_bytes w a b c :
  strings.Split (Key (Request sub)) ":" = [a; b; c] ->
  StatsFactory_Build f sub objType raw raw_bytes w
  = match derivatives_FromWsRaw (String.append b (String ":" c)) raw with
    | Returned (d, err) => (Returned (MDerivativesStatus d, err), w)
    | Panicked => (Panicked, w)
    end.
Proof.
  intros Hs. unfold StatsFactory_Build. rewrite Hs. simpl.
  unfold bind, call, ret. by destruct (derivatives_FromWsRaw _ _) as [[d err]|].
Qed.

End stateless_factory_theorems.

(** * Keys and numbers *)

Import strings_facts grammar decoder_facts.

(** C6.  [StatsFactory.Build] splits the key of the subscription at the
    colons.
    - It returns its own error, whatever the other packages do, exactly when
      there are not three segments; the message of the error ends with the
      key.
    - With three segments it builds the status of the symbol made of the
      second segment, a colon and the third, and returns what the
      constructor returns.
    - A key has three segments exactly when it is three strings without a
      colon, joined by two colons. *)
Theorem StatsFactory_Build_key (sub : subscription) (objType : string)
    (raw_bytes : bytes) :
  let key := Key (Request sub) in
  ((forall (F : Float64) (P : Packages) (f : StatsFactory) raw w,
      StatsFactory_Build f sub objType raw raw_bytes w
      = (Returned (MNil, Some (unable_to_parse key)), w))
   <-> length (strings.Split key ":") ≠ 3)
  /\ (exists msg, unable_to_parse key = Errorf msg /\ strings.Contains msg key = true)
  /\ (forall (F : Float64) (P : Packages) (f : StatsFactory) raw w a b c,
      strings.Split key ":" = [a; b; c] ->
      StatsFactory_Build f sub objType raw raw_bytes w
      = match derivatives_FromWsRaw (String.append b (String ":" c)) raw with
        | Returned (d, err) => (Returned (MDerivativesStatus d, err), w)
        | Panicked => (Panicked, w)
        end)
  /\ (forall a b c,
      strings.Split key ":" = [a; b; c]
      <-> key = String.append a (String ":" (String.append b (String ":" c)))
          /\ strings.Count a ":" = 0 /\ strings.Count b ":" = 0 /\ strings.Count c ":" = 0).
Proof.
  intros key. split; [split|split; [|split]].
  - intros Hall Hlen.
    destruct (strings.Split key ":") as [|a [|b [|c [|? ?]]]] eqn:Hs; try done.
    specialize (Hall testbed.Z_Float64 testbed.packages testbed.stats []
                  testbed.empty_world).
    by rewrite (StatsFactory_Build_three _ _ _ _ _ _ a b c) in Hall.
  - intros Hlen F P f raw w. by apply StatsFactory_Build_malformed.
  - eexists; split; [reflexivity|]. apply Contains_append.
  - intros F P f raw w a b c. apply StatsFactory_Build_three.
  - intros a b c. apply Split_three.
Qed.



(** * More about the book factory *)

Section more_book_theorems.
Context {F64 : Float64} {Pkg : Packages}.

Implicit Types (f : BookFactory) (sub : subscription) (w : world).

(** X1.  A book factory that does not manage the books neither reads nor
    writes the store: [Build] and [BuildSnapshot] have one outcome for
    every world and leave every world as it is. *)
Theorem unmanaged_books_stateless f sub objType raw rows raw_bytes :
  manageBooks f = false ->
  stateless (BookFactory_Build f sub objType raw raw_bytes)
  /\ stateless (BookFactory_BuildSnapshot f sub rows raw_bytes).
Proof.
  intros Hf. split.
  - destruct (Build_cases f sub objType raw raw_bytes) as [?|[? _]];
      [done|congruence].
  - destruct (BuildSnapshot_cases f sub rows raw_bytes) as [[o [Ho _]]|[? _]];
      [by exists o|congruence].
Qed.

(** X2.  Whatever its outcome, [Build] leaves the map of the books as it
    is (no symbol gains, loses or changes its book), creates and drops no
    [Orderbook], and writes to no [Orderbook] but the one of its symbol. *)
Theorem Build_frame f sub objType raw raw_bytes w :
  let w' := snd (BookFactory_Build f sub objType raw raw_bytes w) in
  orderbooks w' = orderbooks w
  /\ dom (heap w') = dom (heap w)
  /\ (forall l,
       orderbooks w !! Symbol (Request sub) ≠ Some l ->
       heap w' !! l = heap w !! l).
Proof.
  destruct (Build_cases f sub objType raw raw_bytes)
    as [[o Ho]|(_ & vs & count & update & err & _ & _ & _ & Hb)].
  - by rewrite Ho.
  - rewrite Hb. apply apply_update_frame.
Qed.

(** X3.  If no symbol is mapped to a [nil] book before a call of [Build]
    or [BuildSnapshot], none is after it, whatever the outcome. *)
Theorem no_nil_book_kept f sub objType raw rows raw_bytes w :
  no_nil_book w ->
  no_nil_book (snd (BookFactory_Build f sub objType raw raw_bytes w))
  /\ no_nil_book (snd (BookFactory_BuildSnapshot f sub rows raw_bytes w)).
Proof.
  intros Hw. split.
  - destruct (Build_cases f sub objType raw raw_bytes)
      as [[o Ho]|(_ & vs & count & update & err & _ & _ & _ & Hb)].
    { by rewrite Ho. }
    rewrite Hb.
    destruct (apply_update_frame (Symbol (Request sub)) update err w)
      as (Hmap & Hdom & _).
    intros sym l Hl. rewrite Hmap in Hl. apply Hw in Hl.
    by rewrite <- elem_of_dom, Hdom, elem_of_dom.
  - destruct (BuildSnapshot_cases f sub rows raw_bytes)
      as [[o [Ho _]]|(_ & converted & vs & count & update & _ & _ & _ & _ & Hb)].
    { by rewrite Ho. }
    rewrite Hb. unfold apply_snapshot.
    assert (forall ob, no_nil_book (installed w (Symbol (Request sub)) ob)) as Hi.
    { intros ob sym l. simpl. rewrite lookup_insert.
      case_decide as Hsym.
      - intros [= <-]. rewrite lookup_insert_eq. by eexists.
      - intros Hl%Hw. rewrite lookup_insert_ne; [done|].
        intros <-. rewrite fresh_loc in Hl. by destruct Hl. }
    destruct (SetWithSnapshot _ update); apply Hi.
Qed.

(** X4.  [BuildSnapshot] changes the store only with the books managed and
    after the rows were converted, the bytes decoded to a sequence with a
    position 1 and the snapshot constructed, all without error.  It then
    maps the symbol to an [Orderbook] that did not exist before and leaves
    the existing ones alone, also when it panics while it fills the new
    book: the book the symbol had is then no longer the symbol's. *)
Theorem BuildSnapshot_store_change f sub rows raw_bytes w :
  let w' := snd (BookFactory_BuildSnapshot f sub rows raw_bytes w) in
  w' ≠ w ->
  manageBooks f = true
  /\ (exists converted vs count update,
        ToFloat64Array rows = Returned (converted, None)
        /\ ConvertBytesToJsonNumberArray raw_bytes = (Some vs, None)
        /\ vs !! 1%nat = Some count
        /\ NewBookUpdateSnapshotFromRaw (Symbol (Request sub))
             (Precision (Request sub)) converted count = Returned (update, None))
  /\ (exists l,
        heap w !! l = None
        /\ orderbooks w' = <[Symbol (Request sub) := l]> (orderbooks w)
        /\ is_Some (heap w' !! l)
        /\ forall l0, is_Some (heap w !! l0) -> heap w' !! l0 = heap w !! l0).
Proof.
  destruct (BuildSnapshot_cases f sub rows raw_bytes)
    as [[o [Ho _]]|(Hf & converted & vs & count & update & H1 & H2 & H3 & H4 & Hb)].
  { rewrite Ho. simpl. done. }
  intros w' _. split; [done|]. split; [by exists converted, vs, count, update|].
  exists (fresh (dom (heap w))). split; [apply fresh_loc|].
  subst w'. rewrite Hb. unfold apply_snapshot.
  destruct (SetWithSnapshot _ update) as [ob'|]; cbn [snd].
  all: split; [reflexivity|].
  all: split; [rewrite (proj2 (installed_symbol _ _ _)); by eexists|].
  all: intros l0 Hl0; by apply installed_old_books.
Qed.

(** X5.  After a [BuildSnapshot] that succeeded with the books managed,
    the symbol has a book, and a [Build] for it whose update is constructed
    applies the update to that very book: it returns what the constructor
    returned, with the book replaced by what [UpdateWith] made of it, or
    panics if [UpdateWith] does. *)
Theorem Build_after_BuildSnapshot f sub rows raw_bytes w m w1
    objType raw raw_bytes' vs count update err :
  manageBooks f = true ->
  BookFactory_BuildSnapshot f sub rows raw_bytes w = (Returned (m, None), w1) ->
  ConvertBytesToJsonNumberArray raw_bytes' = (Some vs, None) ->
  vs !! 1%nat = Some count ->
  NewBookUpdateFromRaw (Symbol (Request sub)) (Precision (Request sub)) raw count
  = Returned (update, err) ->
  exists l ob,
    orderbooks w1 !! Symbol (Request sub) = Some l
    /\ heap w1 !! l = Some ob
    /\ match UpdateWith ob update with
       | Returned ob' =>
           BookFactory_Build f sub objType raw raw_bytes' w1
           = (Returned (MBookUpdate update, err), with_book w1 l ob')
       | Panicked =>
           fst (BookFactory_Build f sub objType raw raw_bytes' w1) = Panicked
       end.
Proof.
  intros Hf Hs Hc Hi%index1_lookup Hu.
  destruct (BuildSnapshot_cases f sub rows raw_bytes)
    as [[o [Ho Hno]]|(_ & converted & vs' & count' & snap & H1 & H2 & H3 & H4 & Hb)].
  { rewrite Ho in Hs. injection Hs as -> <-. by destruct (Hno Hf m). }
  rewrite Hb in Hs. unfold apply_snapshot in Hs.
  destruct (SetWithSnapshot _ snap) as [ob|]; [|done].
  injection Hs as _ <-.
  exists (fresh (dom (heap w))), ob.
  destruct (installed_symbol w (Symbol (Request sub)) ob) as [Hl Hob].
  split; [done|]. split; [done|].
  rewrite (Build_constructed _ _ _ _ _ _ (Some vs) count) by done.
  rewrite Hu, Hf, Hl. unfold Orderbook_UpdateWith. rewrite Hob.
  by destruct (UpdateWith ob update).
Qed.

(** X6.  A snapshot forgets the updates before it: when [BuildSnapshot]
    succeeds with the books managed, it returns the same, maps the same
    symbols and gives the symbol the same book after any earlier [Build]
    for that symbol as without it. *)
Theorem BuildSnapshot_forgets_updates f sub objType raw raw_bytes
    rows raw_bytes' w m w1 :
  manageBooks f = true ->
  BookFactory_BuildSnapshot f sub rows raw_bytes' w = (Returned (m, None), w1) ->
  let w0 := snd (BookFactory_Build f sub objType raw raw_bytes w) in
  exists w1' l ob,
    BookFactory_BuildSnapshot f sub rows raw_bytes' w0 = (Returned (m, None), w1')
    /\ orderbooks w1' = orderbooks w1
    /\ orderbooks w1 !! Symbol (Request sub) = Some l
    /\ heap w1 !! l = Some ob
    /\ heap w1' !! l = Some ob.
Proof.
  intros Hf Hs w0.
  destruct (Build_frame_lemma f sub objType raw raw_bytes w) as (Hmap & Hdom & _).
  fold w0 in Hmap, Hdom.
  destruct (BuildSnapshot_cases f sub rows raw_bytes')
    as [[o [Ho Hno]]|(_ & converted & vs & count & snap & _ & _ & _ & _ & Hb)].
  { rewrite Ho in Hs. injection Hs as -> <-. by destruct (Hno Hf m). }
  rewrite Hb in Hs. rewrite Hb. unfold apply_snapshot in *.
  destruct (SetWithSnapshot _ snap) as [ob|]; [|done].
  injection Hs as <- <-.
  exists (installed w0 (Symbol (Request sub)) ob), (fresh (dom (heap w))), ob.
  split; [done|]. unfold installed. simpl. rewrite Hdom, Hmap.
  by rewrite !lookup_insert_eq.
Qed.

(** X7.  Of the bytes [Build] and [BuildSnapshot] use nothing but the
    element at position 1 of the sequence they decode to: two byte slices
    that decode, without error, to sequences with the same second element
    (or both without one) give the same call. *)
Theorem Build_reads_position_1 f sub objType raw rows raw_bytes1 raw_bytes2 r1 r2 :
  ConvertBytesToJsonNumberArray raw_bytes1 = (r1, None) ->
  ConvertBytesToJsonNumberArray raw_bytes2 = (r2, None) ->
  index1 r1 = index1 r2 ->
  (forall w,
     BookFactory_Build f sub objType raw raw_bytes1 w
     = BookFactory_Build f sub objType raw raw_bytes2 w)
  /\ (forall w,
       BookFactory_BuildSnapshot f sub rows raw_bytes1 w
       = BookFactory_BuildSnapshot f sub rows raw_bytes2 w).
Proof.
  intros H1 H2 Hi. split; intros w.
  - destruct (index1 r1) as [count|] eqn:Hi1; symmetry in Hi.
    + by rewrite (Build_constructed _ _ _ _ _ _ r1 count),
        (Build_constructed _ _ _ _ _ _ r2 count).
    + by rewrite (Build_index_panic _ _ _ _ _ _ r1),
        (Build_index_panic _ _ _ _ _ _ r2).
  - unfold BookFactory_BuildSnapshot, bind, call, ret.
    destruct (ToFloat64Array rows) as [[converted [e|]]|]; [done| |done].
    by rewrite H1, H2, Hi.
Qed.

(** X8.  What [Build] and [BuildSnapshot] return does not depend on the
    store: two calls with the same arguments that both return, in any two
    worlds, return the same result and error. *)
Theorem Build_result_independent_of_store f sub objType raw rows raw_bytes
    w1 w2 :
  (forall r1 r2 w1' w2',
     BookFactory_Build f sub objType raw raw_bytes w1 = (Returned r1, w1') ->
     BookFactory_Build f sub objType raw raw_bytes w2 = (Returned r2, w2') ->
     r1 = r2)
  /\ (forall r1 r2 w1' w2',
       BookFactory_BuildSnapshot f sub rows raw_bytes w1 = (Returned r1, w1') ->
       BookFactory_BuildSnapshot f sub rows raw_bytes w2 = (Returned r2, w2') ->
       r1 = r2).
Proof.
  split; intros r1 r2 w1' w2'.
  - destruct (Build_cases f sub objType raw raw_bytes)
      as [[o Ho]|(_ & vs & count & update & err & _ & _ & _ & Hb)].
    { rewrite !Ho. congruence. }
    rewrite !Hb. unfold apply_update.
    destruct (orderbooks w1 !! _) as [l1|], (orderbooks w2 !! _) as [l2|];
      repeat match goal with
             | |- context [Orderbook_UpdateWith ?l ?u ?w] =>
                 destruct (Orderbook_UpdateWith l u w) as [[[]|] ?]
             end; congruence.
  - destruct (BuildSnapshot_cases f sub rows raw_bytes)
      as [[o [Ho _]]|(_ & converted & vs & count & update & _ & _ & _ & _ & Hb)].
    { rewrite !Ho. congruence. }
    rewrite !Hb. unfold apply_snapshot.
    destruct (SetWithSnapshot _ update); congruence.
Qed.

(** X13.  [BuildSnapshot] returns either an error with the untyped [nil]
    and the store as it was, or a snapshot without error; never a snapshot
    together with an error. *)
Theorem BuildSnapshot_error_or_snapshot f sub rows raw_bytes w m err w' :
  BookFactory_BuildSnapshot f sub rows raw_bytes w = (Returned (m, err), w') ->
  (exists e, err = Some e /\ m = MNil /\ w' = w)
  \/ (err = None /\ exists update, m = MBookUpdateSnapshot update).
Proof.
  unfold BookFactory_BuildSnapshot, bind, call, ret.
  destruct (ToFloat64Array rows) as [[converted [e1|]]|];
    [intros [= <- <- <-]; left; eauto| |done].
  destruct (ConvertBytesToJsonNumberArray raw_bytes) as [r [e2|]];
    [intros [= <- <- <-]; left; eauto|].
  destruct (index1 r) as [count|]; [|done].
  destruct (NewBookUpdateSnapshotFromRaw _ _ _ _) as [[update [e3|]]|];
    [intros [= <- <- <-]; left; eauto| |done].
  destruct (manageBooks f); [|intros [= <- <- <-]; right; eauto].
  unfold install_orderbook, lookup_orderbook. simpl.
  rewrite lookup_insert_eq.
  destruct (Orderbook_SetWithSnapshot _ _ _) as [[[]|] w1]; [|done].
  intros [= <- <- <-]. right. eauto.
Qed.

(** X14.  Two [Build] calls for symbols that do not share a book commute:
    in either order they leave the same store, and each has the outcome it
    has when it runs alone. *)
Theorem Build_commutes f1 f2 sub1 sub2 objType1 objType2 raw1 raw2
    raw_bytes1 raw_bytes2 w :
  (forall l, orderbooks w !! Symbol (Request sub1) = Some l ->
             orderbooks w !! Symbol (Request sub2) ≠ Some l) ->
  let build1 := BookFactory_Build f1 sub1 objType1 raw1 raw_bytes1 in
  let build2 := BookFactory_Build f2 sub2 objType2 raw2 raw_bytes2 in
  snd (build2 (snd (build1 w))) = snd (build1 (snd (build2 w)))
  /\ fst (build2 (snd (build1 w))) = fst (build2 w)
  /\ fst (build1 (snd (build2 w))) = fst (build1 w).
Proof.
  intros Hne build1 build2. subst build1 build2.
  destruct (Build_cases f1 sub1 objType1 raw1 raw_bytes1)
    as [[o1 Ho1]|(_ & vs1 & count1 & u1 & err1 & _ & _ & _ & Hb1)].
  { by rewrite !Ho1. }
  destruct (Build_cases f2 sub2 objType2 raw2 raw_bytes2)
    as [[o2 Ho2]|(_ & vs2 & count2 & u2 & err2 & _ & _ & _ & Hb2)].
  { by rewrite !Ho2. }
  rewrite !Hb1, !Hb2.
  set (sym1 := Symbol (Request sub1)) in *.
  set (sym2 := Symbol (Request sub2)) in *.
  destruct (apply_update_world sym1 u1 err1 w)
    as [[o1 H1]|(l1 & ob1 & ob1' & Hl1 & _ & _ & H1)];
    destruct (apply_update_world sym2 u2 err2 w)
      as [[o2 H2]|(l2 & ob2 & ob2' & Hl2 & _ & _ & H2)];
    rewrite ?H1, ?H2; simpl; rewrite ?H1, ?H2; try done.
  - rewrite apply_update_with_book, H1; [done|].
    intros Hl. by apply (Hne l2).
  - rewrite apply_update_with_book, H2; [done|].
    intros Hl. by apply (Hne l1).
  - assert (l1 ≠ l2) as Hl by (intros ->; by eapply Hne).
    rewrite !apply_update_with_book, H1, H2
      by (intros ?; first [by apply (Hne l1)|by apply (Hne l2)]).
    simpl. split; [|done]. unfold with_book. simpl. f_equal.
    by apply insert_insert_ne.
Qed.

(** X15.  Bytes that begin with [null] decode to a [nil] slice without
    error, which has no position 1: [Build] panics, and so does
    [BuildSnapshot] once the rows are converted, the store untouched. *)
Theorem Build_null_panics f sub objType raw rows raw_bytes w :
  grammar.begins_with_null raw_bytes ->
  BookFactory_Build f sub objType raw raw_bytes w = (Panicked, w)
  /\ (forall converted,
       ToFloat64Array rows = Returned (converted, None) ->
       BookFactory_BuildSnapshot f sub rows raw_bytes w = (Panicked, w)).
Proof.
  intros Hc%decoder_facts.Convert_null. split.
  - by apply (Build_index_panic _ _ _ _ _ _ None).
  - intros converted Hconv.
    unfold BookFactory_BuildSnapshot, bind, call. by rewrite Hconv, Hc.
Qed.

(** X16.  The only way for [BookFactory.Build] to return an error with the
    store changed: the books are managed, the bytes decoded and have a
    position 1, the error is the constructor's and came with an update,
    and the symbol has a book, which is then replaced by the result of
    [UpdateWith]; nothing else of the store differs.  Every other call that
    returns an error leaves the store as it was. *)
Theorem Build_error_store f sub objType raw raw_bytes w m e w' :
  BookFactory_Build f sub objType raw raw_bytes w = (Returned (m, Some e), w') ->
  w' = w
  \/ (manageBooks f = true
      /\ exists vs count u l ob ob',
          ConvertBytesToJsonNumberArray raw_bytes = (Some vs, None)
          /\ vs !! 1%nat = Some count
          /\ NewBookUpdateFromRaw (Symbol (Request sub)) (Precision (Request sub))
               raw count = Returned (Some u, Some e)
          /\ m = MBookUpdate (Some u)
          /\ orderbooks w !! Symbol (Request sub) = Some l
          /\ heap w !! l = Some ob
          /\ UpdateWith ob (Some u) = Returned ob'
          /\ w' = with_book w l ob').
Proof.
  intros H.
  destruct (ConvertBytesToJsonNumberArray raw_bytes) as [r [e'|]] eqn:Hc.
  { rewrite (Build_decode_error _ _ _ _ _ _ r e') in H by done.
    left. congruence. }
  destruct (index1 r) as [count|] eqn:Hi.
  2:{ rewrite (Build_index_panic _ _ _ _ _ _ r) in H by done. congruence. }
  rewrite (Build_constructed _ _ _ _ _ _ r count) in H by done.
  destruct (NewBookUpdateFromRaw _ _ _ _) as [[update err]|] eqn:Hu;
    [|congruence].
  destruct (manageBooks f) eqn:Hf; [|left; congruence].
  destruct (orderbooks w !! _) as [l|] eqn:Hl; [|left; congruence].
  destruct (Orderbook_UpdateWith l update w) as [[[]|] w1] eqn:Hw;
    [|congruence].
  injection H as <- -> <-.
  apply Orderbook_UpdateWith_inv in Hw
    as [[? _]|(ob & ob' & Hob & Hup & _ & ->)]; [done|].
  destruct update as [u|]; [|done].
  destruct r as [vs|]; [|done].
  right. split; [done|].
  exists vs, count, u, l, ob, ob'. by rewrite <- index1_lookup.
Qed.

End more_book_theorems.

(** * More about the other factories *)

Section more_factory_theorems.
Context {F64 : Float64} {Pkg : Packages}.

Implicit Types (sub : subscription) (w : world).

(** X10.  [StatsFactory.Build] fails with its own error when the key does
    not hold exactly two colons.  When it does, the key is a prefix without
    colon, a colon and the symbol, and the status is built for that symbol:
    the prefix is not looked at, and empty segments are accepted. *)
Theorem StatsFactory_Build_symbol (f : StatsFactory) sub objType raw raw_bytes w :
  let key := Key (Request sub) in
  (strings.Count key ":" ≠ 2 ->
   StatsFactory_Build f sub objType raw raw_bytes w
   = (Returned (MNil, Some (unable_to_parse key)), w))
  /\ (strings.Count key ":" = 2 ->
      exists prefix symbol,
        key = String.append prefix (String ":" symbol)
        /\ strings.Count prefix ":" = 0
        /\ strings.Count symbol ":" = 1
        /\ StatsFactory_Build f sub objType raw raw_bytes w
           = match derivatives_FromWsRaw symbol raw with
             | Returned (d, err) => (Returned (MDerivativesStatus d, err), w)
             | Panicked => (Panicked, w)
             end).
Proof.
  intros key. pose proof (strings_facts.Split_length key ":") as Hlen. split.
  - intros Hc. apply StatsFactory_Build_malformed. fold key. lia.
  - intros Hc. rewrite Hc in Hlen.
    destruct (strings.Split key ":") as [|a [|b [|c [|? ?]]]] eqn:Hs; try done.
    destruct (proj1 (strings_facts.Split_three key ":" a b c) Hs)
      as (Hkey & Ha & Hb & Hcc).
    exists a, (String.append b (String ":" c)).
    split; [done|]. split; [done|]. split.
    + rewrite strings_facts.Count_append. simpl. rewrite Hb, Hcc. done.
    + by apply (StatsFactory_Build_three f sub objType raw raw_bytes w a b c).
Qed.

(** X11.  When the key of a candles subscription does not parse, [Build]
    and [BuildSnapshot] both return the error of the parser with the
    untyped [nil], whatever the fields and the bytes, and without building
    a candle. *)
Theorem CandlesFactory_key_error (f : CandlesFactory) sub sym res e :
  extractSymbolResolutionFromKey (Key (Request sub)) = Returned (sym, res, Some e) ->
  forall objType raw rows raw_bytes w,
    CandlesFactory_Build f sub objType raw raw_bytes w
    = (Returned (MNil, Some e), w)
    /\ CandlesFactory_BuildSnapshot f sub rows raw_bytes w
       = (Returned (MNil, Some e), w).
Proof.
  intros Hk objType raw rows raw_bytes w.
  unfold CandlesFactory_Build, CandlesFactory_BuildSnapshot, bind, call, ret.
  by rewrite Hk.
Qed.

(** X12.  Rows that [convert.ToFloat64Array] rejects are rejected by the
    snapshots of the trade and of the book factory alike, with that error
    and the untyped [nil]: the book factory does so before it reads the
    bytes, so that bytes that do not decode, or decode to fewer than two
    elements, make no difference, and the store stays as it is. *)
Theorem conversion_error_first (tf : TradeFactory) (bf : BookFactory)
    sub rows converted e :
  ToFloat64Array rows = Returned (converted, Some e) ->
  forall raw_bytes w,
    TradeFactory_BuildSnapshot tf sub rows raw_bytes w
    = (Returned (MNil, Some e), w)
    /\ BookFactory_BuildSnapshot bf sub rows raw_bytes w
       = (Returned (MNil, Some e), w).
Proof.
  intros Hc raw_bytes w.
  unfold TradeFactory_BuildSnapshot, BookFactory_BuildSnapshot, bind, call, ret.
  by rewrite Hc.
Qed.

End more_factory_theorems.


(** * The theorems at work, on the test bed *)

Import testbed.
Local Open Scope string_scope.
Local Open Scope Z_scope.


(** C2 at work: a count of zero for the price of the only bid. *)
Lemma Build_updates_book_run :
  manageBooks (books true) = true
  /\ ConvertBytesToJsonNumberArray (B "[17,[100,0,5]]")
     = (Some [INumber (B "17");
              ISlice [INumber (B "100"); INumber (B "0"); INumber (B "5")]], None)
  /\ orderbooks world_btc !! Symbol (Request sub_btc) = Some 1%positive
  /\ heap world_btc !! 1%positive = Some book_btc
  /\ exists ob',
       BookFactory_Build (books true) sub_btc "" [100; 0; 5] (B "[17,[100,0,5]]")
         world_btc
       = (Returned (MBookUpdate (Some remove100), None), with_book world_btc 1 ob')
       /\ symbol ob' = "tBTCUSD"
       /\ asks ob' = [ask101]
       /\ (forall x, x ∈ bids ob' <-> x ∈ [bid100] /\ Price x ≠ 100).
Proof.
  assert (ConvertBytesToJsonNumberArray (B "[17,[100,0,5]]")
          = (Some [INumber (B "17");
                   ISlice [INumber (B "100"); INumber (B "0"); INumber (B "5")]],
             None)) as Hc by (vm_compute; reflexivity).
  assert (orderbooks world_btc !! Symbol (Request sub_btc) = Some 1%positive)
    as Hl by (vm_compute; reflexivity).
  assert (heap world_btc !! 1%positive = Some book_btc)
    as Hob by (vm_compute; reflexivity).
  split; [reflexivity|]. split; [exact Hc|]. split; [exact Hl|].
  split; [exact Hob|].
  destruct (Build_updates_book (books true) sub_btc "" [100; 0; 5]
              (B "[17,[100,0,5]]") world_btc _ _ remove100 None 1%positive
              book_btc eq_refl Hc eq_refl eq_refl Hl Hob)
    as (ob' & Hb & Hsym & Hother & _ & Hzero).
  exists ob'. split; [exact Hb|]. split; [exact Hsym|].
  split; [exact (Hother Ask ltac:(discriminate))|].
  exact (proj1 (Hzero eq_refl)).
Defined.

(** C3 at work: a snapshot for a symbol that has a book already. *)
Lemma BuildSnapshot_installs_new_book_run :
  manageBooks (books true) = true
  /\ fst (BookFactory_BuildSnapshot (books true) sub_btc
            [[102; 3; 5]; [103; 1; -2]] (B "[17,[[102,3,5],[103,1,-2]]]")
            world_btc)
     = Returned (MBookUpdateSnapshot (Some snapshot2), None)
  /\ exists snap l ob',
       (l ∉ dom (heap world_btc))
       /\ orderbooks
            (snd (BookFactory_BuildSnapshot (books true) sub_btc
                    [[102; 3; 5]; [103; 1; -2]]
                    (B "[17,[[102,3,5],[103,1,-2]]]") world_btc))
          = <["tBTCUSD" := l]> (orderbooks world_btc)
       /\ bids ob' `sublist_of` Snapshot snap
       /\ asks ob' `sublist_of` Snapshot snap.
Proof.
  split; [reflexivity|]. split; [vm_compute; reflexivity|].
  destruct (BuildSnapshot_installs_new_book (books true) sub_btc
              [[102; 3; 5]; [103; 1; -2]] (B "[17,[[102,3,5],[103,1,-2]]]")
              world_btc (MBookUpdateSnapshot (Some snapshot2))
              (snd (BookFactory_BuildSnapshot (books true) sub_btc
                      [[102; 3; 5]; [103; 1; -2]]
                      (B "[17,[[102,3,5],[103,1,-2]]]") world_btc))
              eq_refl ltac:(vm_compute; reflexivity))
    as (snap & l & ob' & _ & Hl & Hmap & _ & _ & _ & _ & Hb & Ha & _).
  exists snap, l, ob'. auto.
Defined.

(** C5 at work: a trade execution (["te"]) is built. *)
Lemma TradeFactory_Build_filters_updates_run :
  "te" ≠ "tu"
  /\ TradeFactory_Build trades sub_btc "te" [1; 2; 3] [] empty_world
     = (Returned (MTrade (Some [1; 2; 3]), None), empty_world).
Proof.
  split; [discriminate|].
  exact (proj2 (TradeFactory_Build_filters_updates trades sub_btc [1; 2; 3] []
                  empty_world) "te" ltac:(discriminate)).
Defined.

(** C6 at work: the key of a status channel, and a key without colon. *)
Lemma StatsFactory_Build_key_run :
  strings.Split "deriv:tBTCF0:USTF0" ":" = ["deriv"; "tBTCF0"; "USTF0"]
  /\ StatsFactory_Build stats sub_deriv "" [1; 2] [] empty_world
     = (Returned (MDerivativesStatus (Some ("tBTCF0:USTF0", [1; 2])), None),
        empty_world)
  /\ length (strings.Split "badkey" ":") ≠ 3%nat
  /\ StatsFactory_Build stats
       {| Request := {| Symbol := ""; Precision := ""; Key := "badkey" |} |}
       "" [1; 2] [] empty_world
     = (Returned (MNil, Some (Errorf "unable to parse key to symbol badkey")),
        empty_world).
Proof.
  split; [reflexivity|]. split.
  - exact (proj1 (proj2 (proj2 (StatsFactory_Build_key sub_deriv "" [])))
             Z_Float64 packages stats [1; 2] empty_world
             "deriv" "tBTCF0" "USTF0" eq_refl).
  - split; [simpl; lia|].
    exact (proj2 (proj1 (StatsFactory_Build_key
                           {| Request := {| Symbol := ""; Precision := "";
                                            Key := "badkey" |} |} "" []))
             ltac:(simpl; lia) Z_Float64 packages stats [1; 2] empty_world).
Defined.

(** C7 at work: an update for a symbol without a book. *)
Lemma Build_absent_symbol_run :
  orderbooks world_btc !! Symbol (Request sub_eth) = None
  /\ BookFactory_Build (books true) sub_eth "" [100; 2; 5] (B "[17,[100,2,5]]")
       world_btc
     = (Returned
          (MBookUpdate
             (Some {| bu_Symbol := "tETHUSD"; Price := 100; Count := 2;
                      Amount := 5; Side := Bid |}), None),
        world_btc)
  /\ BookFactory_Build (books true) sub_eth "" [100; 2; 5] (B "[17,[100,2,5]]")
       world_btc
     = BookFactory_Build (books false) sub_eth "" [100; 2; 5] (B "[17,[100,2,5]]")
         world_btc.
Proof.
  assert (orderbooks world_btc !! Symbol (Request sub_eth) = None) as Habsent
    by (vm_compute; reflexivity).
  split; [exact Habsent|].
  destruct (proj1 (Build_absent_symbol (Pkg := packages) sub_eth "" [100; 2; 5]
                     (B "[17,[100,2,5]]") world_btc) Habsent)
    as (_ & Hret & Hsame).
  split; [|exact (Hsame (books true) (books false))].
  refine (Hret (books true)
            [INumber (B "17");
             ISlice [INumber (B "100"); INumber (B "2"); INumber (B "5")]]
            _ _ _ _ eq_refl eq_refl).
  vm_compute. reflexivity.
Defined.

(** C9 at work: a message of one element. *)
Lemma Build_index_out_of_range_run :
  ConvertBytesToJsonNumberArray (B "[17]") = (Some [INumber (B "17")], None)
  /\ (length [INumber (B "17")] < 2)%nat
  /\ BookFactory_Build (books true) sub_btc "" [100; 2; 5] (B "[17]") world_btc
     = (Panicked, world_btc)
  /\ BookFactory_BuildSnapshot (books true) sub_btc [[100; 2; 5]] (B "[17]")
       world_btc
     = (Panicked, world_btc).
Proof.
  assert (ConvertBytesToJsonNumberArray (B "[17]")
          = (Some [INumber (B "17")], None)) as Hc by (vm_compute; reflexivity).
  assert (length [INumber (B "17")] < 2)%nat as Hlen by (simpl; lia).
  split; [exact Hc|]. split; [exact Hlen|].
  destruct (proj1 Build_index_out_of_range (books true) sub_btc ""
              [100; 2; 5] [[100; 2; 5]] (B "[17]") world_btc _ Hc Hlen)
    as [Hb Hs].
  split; [exact Hb|]. exact (Hs _ eq_refl).
Defined.


(** * More runs on the test bed *)

Import testbed_worlds.

(** X1 at work: a factory that does not manage the books. *)
Lemma unmanaged_books_stateless_run :
  manageBooks (books false) = false
  /\ stateless (BookFactory_Build (books false) sub_btc "" [100; 0; 5]
                  (B "[17,[100,0,5]]"))
  /\ stateless (BookFactory_BuildSnapshot (books false) sub_btc [[100; 2; 5]]
                  (B "[17,[[100,2,5]]]")).
Proof.
  split; [reflexivity|].
  exact (unmanaged_books_stateless (books false) sub_btc "" [100; 0; 5]
           [[100; 2; 5]] (B "[17,[100,0,5]]") eq_refl).
Defined.

Lemma world_btc_no_nil_book : no_nil_book world_btc.
Proof.
  intros sym l Hl. unfold world_btc in *. simpl in *.
  apply lookup_singleton_Some in Hl as [_ <-].
  rewrite lookup_singleton_eq. by eexists.
Qed.

(** X3 at work: an update and a snapshot for [tBTCUSD]. *)
Lemma no_nil_book_kept_run :
  no_nil_book world_btc
  /\ no_nil_book
       (snd (BookFactory_Build (books true) sub_btc "" [100; 0; 5]
               (B "[17,[100,0,5]]") world_btc))
  /\ no_nil_book
       (snd (BookFactory_BuildSnapshot (books true) sub_btc [[100; 2; 5]]
               (B "[17,[[100,2,5]]]") world_btc)).
Proof.
  split; [exact world_btc_no_nil_book|].
  exact (no_nil_book_kept (books true) sub_btc "" [100; 0; 5] [[100; 2; 5]]
           (B "[17,[100,0,5]]") world_btc world_btc_no_nil_book).
Defined.

Lemma snapshot_changes_world_btc :
  snd (BookFactory_BuildSnapshot (books true) sub_btc
         [[102; 3; 5]; [103; 1; -2]] (B "[17,[[102,3,5],[103,1,-2]]]") world_btc)
  ≠ world_btc.
Proof.
  intros Heq. apply (f_equal (λ w, orderbooks w !! "tBTCUSD"%string)) in Heq.
  vm_compute in Heq. discriminate Heq.
Qed.

(** X4 at work: the snapshot of [tBTCUSD] changes the store. *)
Lemma BuildSnapshot_store_change_run :
  snd (BookFactory_BuildSnapshot (books true) sub_btc
         [[102; 3; 5]; [103; 1; -2]] (B "[17,[[102,3,5],[103,1,-2]]]") world_btc)
  ≠ world_btc
  /\ manageBooks (books true) = true
  /\ exists converted, ToFloat64Array [[102; 3; 5]; [103; 1; -2]]
                       = Returned (converted, None).
Proof.
  split; [exact snapshot_changes_world_btc|].
  destruct (BuildSnapshot_store_change (books true) sub_btc
              [[102; 3; 5]; [103; 1; -2]] (B "[17,[[102,3,5],[103,1,-2]]]")
              world_btc snapshot_changes_world_btc)
    as (Hf & (converted & vs & count & update & Hconv & _) & _).
  split; [exact Hf|]. by exists converted.
Defined.

Lemma snapshot_of_world_btc :
  BookFactory_BuildSnapshot (books true) sub_btc
    [[102; 3; 5]; [103; 1; -2]] (B "[17,[[102,3,5],[103,1,-2]]]") world_btc
  = (Returned (MBookUpdateSnapshot (Some snapshot2), None), world_after_snapshot).
Proof. vm_compute. reflexivity. Qed.

(** X5 at work: a snapshot, then the removal of the bids at 102. *)
Lemma Build_after_BuildSnapshot_run :
  manageBooks (books true) = true
  /\ exists l ob,
       orderbooks world_after_snapshot !! "tBTCUSD"%string = Some l
       /\ heap world_after_snapshot !! l = Some ob.
Proof.
  split; [reflexivity|].
  destruct (Build_after_BuildSnapshot (books true) sub_btc
              [[102; 3; 5]; [103; 1; -2]] (B "[17,[[102,3,5],[103,1,-2]]]")
              world_btc _ _ "" [102; 0; 5] (B "[17,[102,0,5]]")
              [INumber (B "17");
               ISlice [INumber (B "102"); INumber (B "0"); INumber (B "5")]]
              _ _ _ eq_refl snapshot_of_world_btc
              ltac:(vm_compute; reflexivity) eq_refl eq_refl)
    as (l & ob & Hl & Hob & _).
  by exists l, ob.
Defined.

(** X6 at work: the same snapshot after an update. *)
Lemma BuildSnapshot_forgets_updates_run :
  manageBooks (books true) = true
  /\ exists w1',
       BookFactory_BuildSnapshot (books true) sub_btc
         [[102; 3; 5]; [103; 1; -2]] (B "[17,[[102,3,5],[103,1,-2]]]")
         (snd (BookFactory_Build (books true) sub_btc "" [100; 0; 5]
                 (B "[17,[100,0,5]]") world_btc))
       = (Returned (MBookUpdateSnapshot (Some snapshot2), None), w1')
       /\ orderbooks w1' = orderbooks world_after_snapshot.
Proof.
  split; [reflexivity|].
  destruct (BuildSnapshot_forgets_updates (books true) sub_btc "" [100; 0; 5]
              (B "[17,[100,0,5]]") [[102; 3; 5]; [103; 1; -2]]
              (B "[17,[[102,3,5],[103,1,-2]]]") world_btc _ _ eq_refl
              snapshot_of_world_btc)
    as (w1' & l & ob & Hs & Hmap & _).
  by exists w1'.
Defined.

(** X7 at work: another channel number and a third element. *)
Lemma Build_reads_position_1_run :
  BookFactory_Build (books true) sub_btc "" [100; 0; 5] (B "[17,[100,0,5]]")
    world_btc
  = BookFactory_Build (books true) sub_btc "" [100; 0; 5]
      (B "[99, [100,0,5], 7]") world_btc.
Proof.
  exact (proj1 (Build_reads_position_1 (books true) sub_btc "" [100; 0; 5] []
                  (B "[17,[100,0,5]]") (B "[99, [100,0,5], 7]") _ _
                  ltac:(vm_compute; reflexivity) ltac:(vm_compute; reflexivity)
                  eq_refl) world_btc).
Defined.

(** X8 at work: the same update with and without a book. *)
Lemma Build_result_independent_of_store_run :
  fst (BookFactory_Build (books true) sub_btc "" [100; 0; 5]
         (B "[17,[100,0,5]]") world_btc)
  = fst (BookFactory_Build (books true) sub_btc "" [100; 0; 5]
           (B "[17,[100,0,5]]") empty_world).
Proof.
  apply (f_equal Returned).
  exact (proj1 (Build_result_independent_of_store (books true) sub_btc ""
                  [100; 0; 5] [] (B "[17,[100,0,5]]") world_btc empty_world)
           _ _ _ _ ltac:(vm_compute; reflexivity) ltac:(vm_compute; reflexivity)).
Defined.


(** X10 at work: the key of a status channel. *)
Lemma StatsFactory_Build_symbol_run :
  strings.Count "deriv:tBTCF0:USTF0" ":" = 2%nat
  /\ exists prefix symbol,
       "deriv:tBTCF0:USTF0" = String.append prefix (String ":" symbol)
       /\ StatsFactory_Build stats sub_deriv "" [1; 2] [] empty_world
          = (Returned (MDerivativesStatus (Some (symbol, [1; 2])), None),
             empty_world).
Proof.
  split; [reflexivity|].
  destruct (proj2 (StatsFactory_Build_symbol stats sub_deriv "" [1; 2] []
                     empty_world) eq_refl)
    as (prefix & symbol & Hkey & _ & _ & Hb).
  exists prefix, symbol. split; [exact Hkey|exact Hb].
Defined.

(** X11 at work: a candles key without colon. *)
Lemma CandlesFactory_key_error_run :
  CandlesFactory_Build candles sub_badkey "" [1; 2] [] empty_world
  = (Returned (MNil, Some (Errorf "could not parse key")), empty_world)
  /\ CandlesFactory_BuildSnapshot candles sub_badkey [[1; 2]] [] empty_world
     = (Returned (MNil, Some (Errorf "could not parse key")), empty_world).
Proof.
  exact (CandlesFactory_key_error candles sub_badkey _ _ _ eq_refl
           "" [1; 2] [[1; 2]] [] empty_world).
Defined.

(** X12 at work: rows that are not converted, with bytes of one element. *)
Lemma conversion_error_first_run :
  BookFactory_BuildSnapshot (Pkg := strict_testbed.packages)
    (strict_testbed.books true) sub_btc [[100; 2; 5]] (B "[17]") world_btc
  = (Returned (MNil, Some strict_testbed.not_a_number), world_btc).
Proof.
  exact (proj2 (conversion_error_first (Pkg := strict_testbed.packages)
                  strict_testbed.trades (strict_testbed.books true)
                  sub_btc [[100; 2; 5]] _ _ eq_refl (B "[17]") world_btc)).
Defined.

(** X13 at work: the snapshot of [tBTCUSD] comes without error. *)
Lemma BuildSnapshot_error_or_snapshot_run :
  BookFactory_BuildSnapshot (books true) sub_btc
    [[102; 3; 5]; [103; 1; -2]] (B "[17,[[102,3,5],[103,1,-2]]]") world_btc
  = (Returned (MBookUpdateSnapshot (Some snapshot2), None), world_after_snapshot)
  /\ ((exists e, @None error = Some e
                 /\ MBookUpdateSnapshot (Some snapshot2) = MNil
                 /\ world_after_snapshot = world_btc)
      \/ (@None error = None
          /\ exists update, MBookUpdateSnapshot (Some snapshot2)
                            = MBookUpdateSnapshot update)).
Proof.
  split; [exact snapshot_of_world_btc|].
  exact (BuildSnapshot_error_or_snapshot (books true) sub_btc
           [[102; 3; 5]; [103; 1; -2]] (B "[17,[[102,3,5],[103,1,-2]]]")
           world_btc _ _ _ snapshot_of_world_btc).
Defined.

Lemma world_two_no_sharing l :
  orderbooks world_two !! Symbol (Request sub_btc) = Some l ->
  orderbooks world_two !! Symbol (Request sub_eth) ≠ Some l.
Proof.
  intros Hl. vm_compute in Hl. injection Hl as <-. vm_compute. discriminate.
Qed.

(** X14 at work: an update for [tBTCUSD] and one for [tETHUSD]. *)
Lemma Build_commutes_run :
  snd (BookFactory_Build (books true) sub_eth "" [200; 1; -3] (B "[18,[200,1,-3]]")
         (snd (BookFactory_Build (books true) sub_btc "" [100; 0; 5]
                 (B "[17,[100,0,5]]") world_two)))
  = snd (BookFactory_Build (books true) sub_btc "" [100; 0; 5]
           (B "[17,[100,0,5]]")
           (snd (BookFactory_Build (books true) sub_eth "" [200; 1; -3]
                   (B "[18,[200,1,-3]]") world_two))).
Proof.
  exact (proj1 (Build_commutes (books true) (books true) sub_btc sub_eth "" ""
                  [100; 0; 5] [200; 1; -3] (B "[17,[100,0,5]]")
                  (B "[18,[200,1,-3]]") world_two world_two_no_sharing)).
Defined.

(** X15 at work: the message [null]. *)
Lemma Build_null_panics_run :
  grammar.begins_with_null (B "null")
  /\ BookFactory_Build (books true) sub_btc "" [100; 0; 5] (B "null") world_btc
     = (Panicked, world_btc).
Proof.
  assert (grammar.begins_with_null (B "null")) as Hn.
  { exists [], []. split; [constructor|reflexivity]. }
  split; [exact Hn|].
  exact (proj1 (Build_null_panics (books true) sub_btc "" [100; 0; 5] []
                  (B "null") world_btc Hn)).
Defined.

Lemma partial_build_world_btc :
  BookFactory_Build (Pkg := partial_testbed.packages)
    (partial_testbed.books true) sub_btc "" [100] (B "[17,[100,0]]") world_btc
  = (Returned (MBookUpdate (Some (partial_testbed.unfilled "tBTCUSD" 100)),
               Some too_short),
     with_book world_btc 1%positive
       {| symbol := "tBTCUSD"; bids := []; asks := [ask101] |}).
Proof. vm_compute. reflexivity. Qed.

(** X16 at work: fields too short for a book update, with a constructor
    that returns the price it read beside its error: the store is either
    the one before or differs by the book of [tBTCUSD]. *)
Lemma Build_error_store_run :
  BookFactory_Build (Pkg := partial_testbed.packages)
    (partial_testbed.books true) sub_btc "" [100] (B "[17,[100,0]]") world_btc
  = (Returned (MBookUpdate (Some (partial_testbed.unfilled "tBTCUSD" 100)),
               Some too_short),
     with_book world_btc 1%positive
       {| symbol := "tBTCUSD"; bids := []; asks := [ask101] |})
  /\ (with_book world_btc 1%positive
        {| symbol := "tBTCUSD"; bids := []; asks := [ask101] |} = world_btc
      \/ (manageBooks (partial_testbed.books true) = true
          /\ exists vs count u l ob ob',
              ConvertBytesToJsonNumberArray (B "[17,[100,0]]") = (Some vs, None)
              /\ vs !! 1%nat = Some count
              /\ NewBookUpdateFromRaw (Packages := partial_testbed.packages)
                   (Symbol (Request sub_btc)) (Precision (Request sub_btc))
                   [100] count = Returned (Some u, Some too_short)
              /\ @MBookUpdate _ partial_testbed.packages
                   (Some (partial_testbed.unfilled "tBTCUSD" 100))
                 = MBookUpdate (Some u)
              /\ orderbooks world_btc !! Symbol (Request sub_btc) = Some l
              /\ heap world_btc !! l = Some ob
              /\ UpdateWith ob (Some u) = Returned ob'
              /\ with_book world_btc 1%positive
                   {| symbol := "tBTCUSD"; bids := []; asks := [ask101] |}
                 = with_book world_btc l ob')).
Proof.
  split; [exact partial_build_world_btc|].
  exact (Build_error_store (Pkg := partial_testbed.packages)
           (partial_testbed.books true) sub_btc "" [100] (B "[17,[100,0]]")
           world_btc _ _ _ partial_build_world_btc).
Defined.
